(** * OpenAiHandler: the OpenAI-compatible provider adapter

    A shallow embedding of [src/api/providers/openai.ts]: the constructor's
    choice of client, the model-id cache, the shaping of the chat-completion
    request and the mapping of response chunks to stream events.

    Conventions.
    - JavaScript strings are [string]; [undefined] / [null] in an optional
      field is [None].  Truthiness is written out ([truthy_string],
      [truthy_number]).
    - JavaScript numbers are [number]: a rational for a finite value, plus
      [NaN] and the two infinities.  The adapter only tests numbers for
      truthiness and for [> 0] and otherwise passes them through.
    - An operation of the adapter is a computation in the monad [M]: it reads
      and writes [this], may throw, and leaves a trace of the effects it
      performed in program order (network calls, console output, yields of
      the async generator).  In a run of one operation the awaited calls
      settle where they are awaited; [Lifetime] follows an adapter through
      the listings it still waits for, which settle at any later time.
    - The [@withRetry()] decorator and the two message converters are
      imported from files outside this one. *)

From Stdlib Require Import List String Ascii Bool Arith ZArith QArith Lia.
From Stdlib Require Import DecimalString.
Import ListNotations.

Local Open Scope string_scope.
Local Open Scope list_scope.
Local Open Scope bool_scope.
Local Open Scope nat_scope.

(** ** JavaScript values used by the adapter *)

Module Js.

(** [!!s] for a string: the empty string is falsy. *)
Definition truthy_string (s : string) : bool :=
  match s with
  | EmptyString => false
  | String _ _ => true
  end.

(** [!!o] for an optional string: [undefined], [null] and [""] are falsy. *)
Definition truthy (o : option string) : bool :=
  match o with
  | Some s => truthy_string s
  | None => false
  end.

(** [a ?? b] *)
Definition nullish {A : Type} (a : option A) (b : A) : A :=
  match a with
  | Some x => x
  | None => b
  end.

(** [a || b] for an optional string on the left. *)
Definition or_string (a : option string) (b : string) : string :=
  match a with
  | Some s => if truthy_string s then s else b
  | None => b
  end.

(** [String.prototype.includes]: [needle] occurs somewhere in [hay]. *)
Fixpoint includes (hay needle : string) : bool :=
  String.prefix needle hay ||
  match hay with
  | EmptyString => false
  | String _ rest => includes rest needle
  end.

(** [toLowerCase] on one code unit; only A-Z change.  (No character
    outside ASCII lower-cases to a letter of "azure.com".) *)
Definition lower_ascii (c : ascii) : ascii :=
  let n := nat_of_ascii c in
  if (65 <=? n) && (n <=? 90) then ascii_of_nat (n + 32) else c.

Fixpoint toLowerCase (s : string) : string :=
  match s with
  | EmptyString => EmptyString
  | String c rest => String (lower_ascii c) (toLowerCase rest)
  end.

(** A JavaScript number. *)
Inductive number : Type :=
| Num (q : Q)
| NaN
| Infinity
| NegInfinity.

Definition zero : number := Num 0.

(** [!!n]: [0] and [NaN] are falsy. *)
Definition truthy_number (n : number) : bool :=
  match n with
  | Num q => negb (Qeq_bool q 0)
  | NaN => false
  | Infinity | NegInfinity => true
  end.

(** [n > 0] *)
Definition gt_zero (n : number) : bool :=
  match n with
  | Num q => negb (Qle_bool q 0)
  | Infinity => true
  | NaN | NegInfinity => false
  end.

(** [n || 0] for an optional number. *)
Definition or_zero (n : option number) : number :=
  match n with
  | Some x => if truthy_number x then x else zero
  | None => zero
  end.

(** [`${n}`] for an array length. *)
Definition of_length (n : nat) : string :=
  NilZero.string_of_uint (Nat.to_uint n).

(** A thrown [Error]. *)
Record Error : Type := mkError { message : string }.

End Js.

Import Js.

(** ** Data model *)

(** [ModelInfo] (shared/api): the fields the adapter reads. *)
Record ModelInfo : Type := mkModelInfo {
  maxTokens : option number;
  temperature : option number;
  isR1FormatRequired : option bool
}.

(** [ApiHandlerOptions] (shared/api): the fields the adapter reads. *)
Record ApiHandlerOptions : Type := mkOptions {
  openAiApiKey : option string;
  openAiBaseUrl : option string;
  azureApiVersion : option string;
  openAiModelId : option string;
  openAiModelInfo : option ModelInfo;
  o3MiniReasoningEffort : option string
}.

(** The two client classes of the SDK, with their constructor arguments. *)
Inductive Client : Type :=
| OpenAI (baseURL : option string) (apiKey : string)
| AzureOpenAI (baseURL : option string) (apiKey : string) (apiVersion : string).

(** Conversation messages: [Anthropic.Messages.MessageParam], with textual
    content. *)
Inductive AnthropicRole : Type := RoleUser | RoleAssistant.

Record MessageParam : Type := mkMessageParam {
  role : AnthropicRole;
  content : string
}.

(** [OpenAI.Chat.ChatCompletionMessageParam] *)
Inductive ChatRole : Type := System | Developer | User | Assistant.

Record ChatCompletionMessageParam : Type := mkChatMessage {
  chat_role : ChatRole;
  chat_content : string
}.

(** The body of [client.chat.completions.create]. *)
Record ChatCompletionCreateParams : Type := mkRequest {
  model : string;
  messages : list ChatCompletionMessageParam;
  req_temperature : option number;
  max_tokens : option number;
  reasoning_effort : option string;
  stream : bool;
  stream_options_include_usage : bool
}.

(** A chunk of the response stream. [reasoning_content] is a vendor field:
    [None] when the key is absent from the delta, [Some None] when the key
    is there with [null] or [undefined]. *)
Record Delta : Type := mkDelta {
  delta_content : option string;
  reasoning_content : option (option string)
}.

Record Choice : Type := mkChoice { delta : option Delta }.

Record CompletionUsage : Type := mkUsage {
  prompt_tokens : option number;
  completion_tokens : option number
}.

Record ChatCompletionChunk : Type := mkChunk {
  choices : list Choice;
  usage : option CompletionUsage
}.

(** [ApiStreamChunk] (transform/stream): what the generator yields. *)
Inductive ApiStreamChunk : Type :=
| TextChunk (text : string)
| ReasoningChunk (reasoning : string)
| UsageChunk (inputTokens outputTokens : number).

(** The adapter object. *)
Record OpenAiHandler : Type := mkHandler {
  options : ApiHandlerOptions;
  client : Client;
  availableModels : list string
}.

(** ** The server, as one operation sees it *)

Inductive Outcome (A : Type) : Type :=
| Resolves (a : A)
| Rejects (e : Error).
Arguments Resolves {A} a.
Arguments Rejects {A} e.

(** An entry of the model listing.  Its field [id] is the model identifier
    (in this file [id] is this projection, not the identity function). *)
Record Model : Type := mkModel { id : string }.

(** The page returned by [client.models.list()]; [data] is [None] when the
    body has no [data] array. *)
Record ModelsPage : Type := mkPage { data : option (list Model) }.

(** The response stream: the chunks it delivers, and the error it ends with
    if it breaks off. *)
Record ChatStream : Type := mkStream {
  chunks : list ChatCompletionChunk;
  breaks_with : option Error
}.

Record Server : Type := mkServer {
  models_list : Outcome ModelsPage;
  chat_completions_create : ChatCompletionCreateParams -> Outcome ChatStream
}.

(** ** Effects and the monad of operations *)

Inductive Effect : Type :=
| ModelsListCall
| ChatCompletionsCreateCall (req : ChatCompletionCreateParams)
| ConsoleLog (text : string)
| ConsoleError (label detail : string)
| Yield (ev : ApiStreamChunk).

Inductive Completion (A : Type) : Type :=
| Returned (a : A)
| Thrown (e : Error).
Arguments Returned {A} a.
Arguments Thrown {A} e.

Record Run (A : Type) : Type := mkRun {
  completion : Completion A;
  final : OpenAiHandler;
  trace : list Effect
}.
Arguments mkRun {A} _ _ _.
Arguments completion {A} _.
Arguments final {A} _.
Arguments trace {A} _.

Definition M (A : Type) : Type := OpenAiHandler -> Run A.

Definition ret {A : Type} (a : A) : M A :=
  fun this => mkRun (Returned a) this [].

Definition bind {A B : Type} (m : M A) (k : A -> M B) : M B :=
  fun this =>
    let r := m this in
    match completion r with
    | Returned a =>
        let r' := k a (final r) in
        mkRun (completion r') (final r') (trace r ++ trace r')
    | Thrown e => mkRun (Thrown e) (final r) (trace r)
    end.

Definition throw {A : Type} (e : Error) : M A :=
  fun this => mkRun (Thrown e) this [].

(** [try { body } catch (error) { handler }] *)
Definition try_catch {A : Type} (body : M A) (handler : Error -> M A) : M A :=
  fun this =>
    let r := body this in
    match completion r with
    | Returned a => r
    | Thrown e =>
        let r' := handler e (final r) in
        mkRun (completion r') (final r') (trace r ++ trace r')
    end.

Definition get_this : M OpenAiHandler :=
  fun this => mkRun (Returned this) this [].

(** [this.availableModels = l] *)
Definition set_availableModels (l : list string) : M unit :=
  fun this =>
    mkRun (Returned tt) (mkHandler (options this) (client this) l) [].

Definition perform (e : Effect) : M unit :=
  fun this => mkRun (Returned tt) this [e].

Definition settle {A : Type} (o : Outcome A) : M A :=
  match o with
  | Resolves a => ret a
  | Rejects e => throw e
  end.

Definition when (b : bool) (m : M unit) : M unit :=
  if b then m else ret tt.

Declare Scope js_scope.
Delimit Scope js_scope with js.
Notation "x <- c1 ;; c2" := (bind c1 (fun x => c2))
  (at level 61, c1 at next level, right associativity) : js_scope.
Notation "c1 ;; c2" := (bind c1 (fun _ => c2))
  (at level 61, right associativity) : js_scope.
Local Open Scope js_scope.

(** [for await (const x of stream) body]: the body runs on each chunk in
    turn; an exception in the body or a broken stream ends the loop. *)
Fixpoint for_each {A : Type} (l : list A) (body : A -> M unit) : M unit :=
  match l with
  | [] => ret tt
  | x :: rest => body x ;; for_each rest body
  end.

Definition for_await (s : ChatStream) (body : ChatCompletionChunk -> M unit)
  : M unit :=
  for_each (chunks s) body ;;
  match breaks_with s with
  | Some e => throw e
  | None => ret tt
  end.

(** The events a run yielded, and the network calls it made, in order. *)
Definition yielded (t : list Effect) : list ApiStreamChunk :=
  flat_map (fun e => match e with Yield ev => [ev] | _ => [] end) t.

Definition is_models_list_call (e : Effect) : bool :=
  match e with ModelsListCall => true | _ => false end.

Definition chat_requests (t : list Effect) : list ChatCompletionCreateParams :=
  flat_map (fun e => match e with ChatCompletionsCreateCall r => [r] | _ => [] end) t.

(** ** What the adapter imports from other files

    [azureOpenAiDefaultApiVersion] and [openAiModelInfoSaneDefaults] come
    from shared/api, the converters from transform/openai-format and
    transform/r1-format. *)
Class Imports : Type := mkImports {
  azureOpenAiDefaultApiVersion : string;
  openAiModelInfoSaneDefaults : ModelInfo;
  convertToOpenAiMessages : list MessageParam -> list ChatCompletionMessageParam;
  convertToR1Format : list MessageParam -> list ChatCompletionMessageParam
}.

(** ** The adapter *)

Section Adapter.

Context {imports : Imports}.

(** Lines 16-33: the constructor up to the call that primes the cache. *)
Definition constructor (opts : ApiHandlerOptions) : OpenAiHandler :=
  let apiKey := or_string (openAiApiKey opts) "" in
  let azure :=
    truthy (azureApiVersion opts) ||
    match openAiBaseUrl opts with
    | Some url => includes (toLowerCase url) "azure.com"
    | None => false
    end in
  let client :=
    if azure then
      AzureOpenAI (openAiBaseUrl opts) apiKey
        (or_string (azureApiVersion opts) azureOpenAiDefaultApiVersion)
    else
      OpenAI (openAiBaseUrl opts) apiKey in
  mkHandler opts client [].

(** [this.client.models.list()] *)
Definition client_models_list (srv : Server) : M ModelsPage :=
  perform ModelsListCall ;; settle (models_list srv).

(** [this.client.chat.completions.create(req)] *)
Definition client_chat_completions_create
    (srv : Server) (req : ChatCompletionCreateParams) : M ChatStream :=
  perform (ChatCompletionsCreateCall req) ;;
  settle (chat_completions_create srv req).

(** Lines 134-142.  A response without a [data] array makes [.map] raise a
    TypeError inside the [try] block. *)
Definition listModels (srv : Server) : M (list string) :=
  try_catch
    (response <- client_models_list srv ;;
     match data response with
     | Some models => ret (map id models)
     | None => throw (mkError "response.data is undefined")
     end)
    (fun error =>
       perform (ConsoleError "Error fetching model list:" (message error)) ;;
       ret []).

(** Lines 38-46. *)
Definition initializeModelList (srv : Server) : M unit :=
  try_catch
    (models <- listModels srv ;;
     set_availableModels models ;;
     this <- get_this ;;
     perform (ConsoleLog ("Retrieved " ++ of_length (List.length (availableModels this))
                            ++ " models from the server")%string))
    (fun error =>
       perform (ConsoleError "Failed to retrieve models during initialization:"
                  (message error)) ;;
       set_availableModels []).

(** [new OpenAiHandler(options)] with the priming of line 35 run to its
    end. *)
Definition new_OpenAiHandler (srv : Server) (opts : ApiHandlerOptions) : Run unit :=
  initializeModelList srv (constructor opts).

(** Lines 51-69: the model id of a call. *)
Definition resolveModelId (srv : Server) : M string :=
  this <- get_this ;;
  let modelId := nullish (openAiModelId (options this)) "" in
  if negb (truthy_string modelId) then
    when (List.length (availableModels this) =? 0)
      (try_catch
         (models <- listModels srv ;; set_availableModels models)
         (fun error =>
            perform (ConsoleError "Failed to retrieve models:" (message error)))) ;;
    this <- get_this ;;
    match availableModels this with
    | first :: _ =>
        perform (ConsoleLog ("Using first available model: " ++ first)%string) ;;
        ret first
    | [] => throw (mkError "No models available from the OpenAI-compatible server")
    end
  else ret modelId.

(** Lines 71-97 and the argument of line 99: the request for a resolved
    model id. *)
Definition shapeRequest (opts : ApiHandlerOptions) (modelId systemPrompt : string)
    (msgs : list MessageParam) : ChatCompletionCreateParams :=
  let info := openAiModelInfo opts in
  let isDeepseekReasoner := includes modelId "deepseek-reasoner" in
  let isR1FormatRequired' :=
    nullish (match info with Some i => isR1FormatRequired i | None => None end) false in
  let isO3Mini := includes modelId "o3-mini" in
  let openAiMessages :=
    mkChatMessage System systemPrompt :: convertToOpenAiMessages msgs in
  let temperature' :=
    match (match info with Some i => temperature i | None => None end) with
    | Some t => Some t
    | None => temperature openAiModelInfoSaneDefaults
    end in
  let reasoningEffort : option string := None in
  let maxTokens' :=
    match (match info with Some i => maxTokens i | None => None end) with
    | Some n => if truthy_number n && gt_zero n then Some n else None
    | None => None
    end in
  let openAiMessages :=
    if isDeepseekReasoner || isR1FormatRequired'
    then convertToR1Format (mkMessageParam RoleUser systemPrompt :: msgs)
    else openAiMessages in
  let openAiMessages :=
    if isO3Mini
    then mkChatMessage Developer systemPrompt :: convertToOpenAiMessages msgs
    else openAiMessages in
  let temperature' := if isO3Mini then None else temperature' in
  let reasoningEffort :=
    if isO3Mini
    then Some (or_string (o3MiniReasoningEffort opts) "medium")
    else reasoningEffort in
  mkRequest modelId openAiMessages temperature' maxTokens' reasoningEffort true true.

(** Lines 109-130: the body of the loop over the response stream. *)
Definition onChunk (chunk : ChatCompletionChunk) : M unit :=
  let d := match nth_error (choices chunk) 0 with
           | Some choice => delta choice
           | None => None
           end in
  match d with
  | Some dl =>
      match delta_content dl with
      | Some s => when (truthy_string s) (perform (Yield (TextChunk s)))
      | None => ret tt
      end
  | None => ret tt
  end ;;
  match d with
  | Some dl =>
      match reasoning_content dl with
      | Some r => when (truthy r) (perform (Yield (ReasoningChunk (or_string r ""))))
      | None => ret tt
      end
  | None => ret tt
  end ;;
  match usage chunk with
  | Some u =>
      perform (Yield (UsageChunk (or_zero (prompt_tokens u))
                                 (or_zero (completion_tokens u))))
  | None => ret tt
  end.

(** Lines 49-132, without the retry decorator. *)
Definition createMessage (srv : Server) (systemPrompt : string)
    (msgs : list MessageParam) : M unit :=
  modelId <- resolveModelId srv ;;
  this <- get_this ;;
  response <- client_chat_completions_create srv
                (shapeRequest (options this) modelId systemPrompt msgs) ;;
  for_await response onChunk.

(** Lines 144-149. *)
Definition getModel (this : OpenAiHandler) : string * ModelInfo :=
  (nullish (openAiModelId (options this)) "",
   nullish (openAiModelInfo (options this)) openAiModelInfoSaneDefaults).

(** Lines 156-158. *)
Definition getAvailableModels (this : OpenAiHandler) : list string :=
  availableModels this.

(** Lines 99-131: the request and the loop over its response. *)
Definition converse (srv : Server) (req : ChatCompletionCreateParams) : M unit :=
  response <- client_chat_completions_create srv req ;;
  for_await response onChunk.

(** The public operations, as a caller issues them one after another;
    each comes with the server's behaviour during it. *)
Inductive Operation : Type :=
| CreateMessage (srv : Server) (systemPrompt : string) (msgs : list MessageParam)
| ListModels (srv : Server)
| GetModel
| GetAvailableModels.

Definition step (op : Operation) (this : OpenAiHandler) : OpenAiHandler :=
  match op with
  | CreateMessage srv systemPrompt msgs => final (createMessage srv systemPrompt msgs this)
  | ListModels srv => final (listModels srv this)
  | GetModel => this
  | GetAvailableModels => this
  end.

(** Public operations one after the other, each run to its end before the
    next starts. *)
Definition steps (ops : list Operation) (this : OpenAiHandler) : OpenAiHandler :=
  fold_left (fun h op => step op h) ops this.

(** *** The lifetime of an adapter, with the listings it waits for

    The constructor starts the priming at line 35 and does not wait for it,
    and a call that finds no explicit id and an empty cache waits for its
    own listing at line 57.  Both write [this.availableModels] when their
    listing settles, whatever the cache holds by then.  The definitions
    below are the code from these two points on; everywhere else an
    operation touches [this] no more once it waits. *)

(** Lines 136-141, from the point where the listing awaited at line 136
    settles. *)
Definition listModels_settled (srv : Server) : M (list string) :=
  try_catch
    (response <- settle (models_list srv) ;;
     match data response with
     | Some models => ret (map id models)
     | None => throw (mkError "response.data is undefined")
     end)
    (fun error =>
       perform (ConsoleError "Error fetching model list:" (message error)) ;;
       ret []).

(** Lines 40-45, from the point where the listing awaited at line 40
    settles. *)
Definition primingSettles (srv : Server) : M unit :=
  try_catch
    (models <- listModels_settled srv ;;
     set_availableModels models ;;
     this <- get_this ;;
     perform (ConsoleLog ("Retrieved " ++ of_length (List.length (availableModels this))
                            ++ " models from the server")%string))
    (fun error =>
       perform (ConsoleError "Failed to retrieve models during initialization:"
                  (message error)) ;;
       set_availableModels []).

(** Lines 51-55: the call has no explicit id and finds the cache empty, so
    it starts a listing and waits for it at line 57. *)
Definition awaitsRefresh (this : OpenAiHandler) : bool :=
  negb (truthy_string (nullish (openAiModelId (options this)) "")) &&
  (List.length (availableModels this) =? 0).

(** Lines 57-131, from the point where the listing awaited at line 57
    settles. *)
Definition refreshSettles (srv : Server) (systemPrompt : string)
    (msgs : list MessageParam) : M unit :=
  try_catch
    (models <- listModels_settled srv ;; set_availableModels models)
    (fun error =>
       perform (ConsoleError "Failed to retrieve models:" (message error))) ;;
  this <- get_this ;;
  modelId <- match availableModels this with
             | first :: _ =>
                 perform (ConsoleLog ("Using first available model: " ++ first)%string) ;;
                 ret first
             | [] => throw (mkError "No models available from the OpenAI-compatible server")
             end ;;
  this <- get_this ;;
  converse srv (shapeRequest (options this) modelId systemPrompt msgs).

(** An adapter with what it waits for: whether the priming of line 35 has
    not settled yet, and the calls that wait at line 57, each with its
    arguments. *)
Record Lifetime : Type := mkLifetime {
  adapter : OpenAiHandler;
  priming : bool;
  waiting : list (string * list MessageParam)
}.

(** [new OpenAiHandler(options)] as the constructor returns: the priming is
    under way. *)
Definition born (opts : ApiHandlerOptions) : Lifetime :=
  mkLifetime (constructor opts) true [].

(** What happens to an adapter: a caller starts a public operation, the
    listing of the priming settles, or the listing of the waiting call at
    the given position settles.  A settlement comes with the server's
    answer. *)
Inductive Event : Type :=
| Starts (op : Operation)
| PrimingSettles (srv : Server)
| RefreshSettles (position : nat) (srv : Server).

(** One event; [None] when it cannot happen (no priming under way, no call
    waiting at that position). *)
Definition lifeStep (e : Event) (l : Lifetime) : option Lifetime :=
  match e with
  | Starts (CreateMessage srv systemPrompt msgs) =>
      if awaitsRefresh (adapter l) then
        Some (mkLifetime (adapter l) (priming l) (waiting l ++ [(systemPrompt, msgs)]))
      else
        Some (mkLifetime (final (createMessage srv systemPrompt msgs (adapter l)))
                (priming l) (waiting l))
  | Starts op => Some (mkLifetime (step op (adapter l)) (priming l) (waiting l))
  | PrimingSettles srv =>
      if priming l then
        Some (mkLifetime (final (primingSettles srv (adapter l))) false (waiting l))
      else None
  | RefreshSettles position srv =>
      match nth_error (waiting l) position with
      | Some (systemPrompt, msgs) =>
          Some (mkLifetime (final (refreshSettles srv systemPrompt msgs (adapter l)))
                  (priming l)
                  (firstn position (waiting l) ++ skipn (S position) (waiting l)))
      | None => None
      end
  end.

Fixpoint lifeSteps (events : list Event) (l : Lifetime) : option Lifetime :=
  match events with
  | [] => Some l
  | e :: rest =>
      match lifeStep e l with
      | Some l' => lifeSteps rest l'
      | None => None
      end
  end.

End Adapter.

(** ** A sample of the imported parts

    The converters of transform/openai-format and transform/r1-format and
    the two constants of shared/api are not part of this file's source.
    The theorems below hold for any [Imports]; this instance serves the
    concrete runs. *)
Module Sample.

Definition chatRole (r : AnthropicRole) : ChatRole :=
  match r with
  | RoleUser => User
  | RoleAssistant => Assistant
  end.

Definition sameRole (a b : ChatRole) : bool :=
  match a, b with
  | System, System | Developer, Developer | User, User | Assistant, Assistant => true
  | _, _ => false
  end.

Definition newline : string := String (ascii_of_nat 10) EmptyString.

(** Modelled from the spec: [convertToOpenAiMessages] of
    transform/openai-format, the standard role layout: one message per
    turn, with the turn's role and content. *)
Definition toOpenAiMessages (msgs : list MessageParam)
  : list ChatCompletionMessageParam :=
  map (fun m => mkChatMessage (chatRole (role m)) (content m)) msgs.

(** Modelled from the spec: [convertToR1Format] of transform/r1-format, the
    alternate role layout: neighbouring turns of one role are joined into
    one message, so that a leading user-role instruction is folded into the
    first user turn; no message has the system or the developer role. *)
Fixpoint toR1Format (msgs : list MessageParam) : list ChatCompletionMessageParam :=
  match msgs with
  | [] => []
  | m :: rest =>
      match toR1Format rest with
      | next :: others =>
          if sameRole (chatRole (role m)) (chat_role next)
          then mkChatMessage (chat_role next)
                 (content m ++ newline ++ chat_content next)%string :: others
          else mkChatMessage (chatRole (role m)) (content m) :: next :: others
      | [] => [mkChatMessage (chatRole (role m)) (content m)]
      end
  end.

(** Modelled from the spec: the constants of shared/api, a fixed fallback
    API version and the built-in metadata defaults, with sample values. *)
Definition imports : Imports :=
  mkImports "2024-08-01-preview"
    (mkModelInfo (Some (Num (-1))) (Some (Num 0)) (Some false))
    toOpenAiMessages toR1Format.

(** A server that lists the given ids and streams the given chunks. *)
Definition server (ids : list string) (cs : list ChatCompletionChunk) : Server :=
  mkServer (Resolves (mkPage (Some (map mkModel ids))))
           (fun _ => Resolves (mkStream cs None)).

(** A server that is down. *)
Definition unreachable : Server :=
  mkServer (Rejects (mkError "connect ECONNREFUSED"))
           (fun _ => Rejects (mkError "connect ECONNREFUSED")).

(** A server whose response stream delivers the given chunks and then
    breaks off. *)
Definition breaking (cs : list ChatCompletionChunk) (e : Error) : Server :=
  mkServer (Resolves (mkPage (Some [])))
           (fun _ => Resolves (mkStream cs (Some e))).

Definition optionsFor (modelId : option string) (info : option ModelInfo)
  : ApiHandlerOptions :=
  mkOptions None (Some "http://localhost:1234/v1") None modelId info None.

(** A conversation, an adapter and a call for the concrete runs. *)
Definition hi : list MessageParam := [mkMessageParam RoleUser "Hi"].

Definition handler (modelId : option string) (info : option ModelInfo)
  : OpenAiHandler :=
  constructor (imports := imports) (optionsFor modelId info).

Definition call (srv : Server) (this : OpenAiHandler) : Run unit :=
  createMessage (imports := imports) srv "Be brief." hi this.

End Sample.

(** ** Specification-side readings *)

(** The ids a listing call delivers: those of the page, none when the call
    fails or the page is malformed. *)
Definition listed (srv : Server) : list string :=
  match models_list srv with
  | Resolves page =>
      match data page with
      | Some models => map id models
      | None => []
      end
  | Rejects _ => []
  end.

(** [needle] occurs in [hay]. *)
Definition occurs_in (needle hay : string) : Prop :=
  exists before after : string, hay = (before ++ needle ++ after)%string.

(** A number greater than zero. *)
Definition positive (n : number) : Prop :=
  match n with
  | Num q => (0 < q)%Q
  | Infinity => True
  | NaN | NegInfinity => False
  end.

(** The delta of the first choice of a chunk, if there is one. *)
Definition firstDelta (chunk : ChatCompletionChunk) : option Delta :=
  match choices chunk with
  | choice :: _ => delta choice
  | [] => None
  end.

(** The events of one chunk, kind by kind. *)
Definition textEvents (chunk : ChatCompletionChunk) : list ApiStreamChunk :=
  match firstDelta chunk with
  | Some d =>
      match delta_content d with
      | Some (String c s) => [TextChunk (String c s)]
      | _ => []
      end
  | None => []
  end.

Definition reasoningEvents (chunk : ChatCompletionChunk) : list ApiStreamChunk :=
  match firstDelta chunk with
  | Some d =>
      match reasoning_content d with
      | Some (Some (String c s)) => [ReasoningChunk (String c s)]
      | _ => []
      end
  | None => []
  end.

Definition usageEvents (chunk : ChatCompletionChunk) : list ApiStreamChunk :=
  match usage chunk with
  | Some u => [UsageChunk (or_zero (prompt_tokens u)) (or_zero (completion_tokens u))]
  | None => []
  end.

Definition chunkEvents (chunk : ChatCompletionChunk) : list ApiStreamChunk :=
  textEvents chunk ++ reasoningEvents chunk ++ usageEvents chunk.

(** What the listing writes to the console. *)
Definition listingLog (srv : Server) : list Effect :=
  match models_list srv with
  | Resolves page =>
      match data page with
      | Some _ => []
      | None => [ConsoleError "Error fetching model list:" "response.data is undefined"]
      end
  | Rejects e => [ConsoleError "Error fetching model list:" (message e)]
  end.

(** The cache after model resolution without an explicit id. *)
Definition refreshed (srv : Server) (this : OpenAiHandler) : list string :=
  match availableModels this with
  | [] => listed srv
  | cached => cached
  end.

Definition noModels : Error :=
  mkError "No models available from the OpenAI-compatible server".

Definition with_availableModels (this : OpenAiHandler) (l : list string) : OpenAiHandler :=
  mkHandler (options this) (client this) l.

Definition models_list_calls (t : list Effect) : list Effect :=
  filter is_models_list_call t.

(** The simulated stream of the spec: a content delta, a reasoning delta and
    the usage totals. *)
Definition threeChunks : list ChatCompletionChunk :=
  [ mkChunk [mkChoice (Some (mkDelta (Some "Hello") None))] None;
    mkChunk [mkChoice (Some (mkDelta None (Some (Some "thinking"))))] None;
    mkChunk [] (Some (mkUsage (Some (Num 10)) (Some (Num 5)))) ].

(** The metadata value of the maximum number of output tokens. *)
Definition metadataMaxTokens (opts : ApiHandlerOptions) : option number :=
  match openAiModelInfo opts with
  | Some info => maxTokens info
  | None => None
  end.

(** The metadata flag that asks for the alternate layout is set. *)
Definition r1FormatRequired (opts : ApiHandlerOptions) : Prop :=
  exists info, openAiModelInfo opts = Some info /\ isR1FormatRequired info = Some true.

Definition isAzure (c : Client) : bool :=
  match c with
  | AzureOpenAI _ _ _ => true
  | OpenAI _ _ => false
  end.

(** An explicit API version is present. *)
Definition versionGiven (opts : ApiHandlerOptions) : Prop :=
  exists v, azureApiVersion opts = Some v /\ v <> "".

(** The base URL names the enterprise-gateway host, in any letter case. *)
Definition gatewayHost (opts : ApiHandlerOptions) : Prop :=
  exists url, openAiBaseUrl opts = Some url /\ occurs_in "azure.com" (toLowerCase url).

(** How a call comes to its model id: the id, the cache after resolution
    and the effects of resolution. *)
Inductive Resolved (srv : Server) (this : OpenAiHandler)
  : string -> list string -> list Effect -> Prop :=
| ResolvedExplicit :
    truthy (openAiModelId (options this)) = true ->
    Resolved srv this (nullish (openAiModelId (options this)) "")
      (availableModels this) []
| ResolvedCached (first : string) (others : list string) :
    truthy (openAiModelId (options this)) = false ->
    availableModels this = first :: others ->
    Resolved srv this first (first :: others)
      [ConsoleLog ("Using first available model: " ++ first)%string]
| ResolvedListed (first : string) (others : list string) :
    truthy (openAiModelId (options this)) = false ->
    availableModels this = [] ->
    listed srv = first :: others ->
    Resolved srv this first (first :: others)
      (ModelsListCall :: listingLog srv
         ++ [ConsoleLog ("Using first available model: " ++ first)%string]).

(** ** Strings and numbers *)

Lemma prefix_occurs (needle hay : string) :
  String.prefix needle hay = true <->
  exists after : string, hay = (needle ++ after)%string.
Proof.
  revert hay. induction needle as [|c needle IH]; intros hay.
  - destruct hay; simpl; split; eauto.
  - destruct hay as [|c' hay]; simpl.
    + split; [discriminate | intros [after H]; discriminate].
    + destruct (ascii_dec c c') as [->|Hne].
      * rewrite IH. split; intros [after H]; exists after.
        -- now rewrite H.
        -- now inversion H.
      * split; [discriminate | intros [after H]; inversion H; congruence].
Qed.

Lemma includes_occurs (hay needle : string) :
  includes hay needle = true <-> occurs_in needle hay.
Proof.
  unfold occurs_in. induction hay as [|c hay IH].
  - cbn [includes]. rewrite orb_false_r, prefix_occurs. split.
    + intros [after H]. exists EmptyString, after. exact H.
    + intros [[|c before] [after H]].
      * exists after. exact H.
      * discriminate.
  - cbn [includes]. rewrite orb_true_iff, prefix_occurs, IH. split.
    + intros [[after H] | [before [after H]]].
      * exists EmptyString, after. exact H.
      * exists (String c before), after. simpl. now rewrite H.
    + intros [[|c' before] [after H]].
      * left. exists after. exact H.
      * right. exists before, after. simpl in H. now inversion H.
Qed.

Lemma truthy_string_iff (s : string) : truthy_string s = true <-> s <> EmptyString.
Proof. destruct s; simpl; split; congruence. Qed.

Lemma truthy_iff (o : option string) :
  truthy o = true <-> exists s, o = Some s /\ s <> EmptyString.
Proof.
  destruct o as [s|]; simpl.
  - rewrite truthy_string_iff. split.
    + intros H. exists s. now split.
    + intros [s' [E H]]. now inversion E; subst.
  - split; [discriminate | intros [s [E _]]; discriminate].
Qed.

Lemma gt_zero_positive (n : number) : gt_zero n = true <-> positive n.
Proof.
  destruct n as [q| | |]; cbn [gt_zero positive].
  - rewrite negb_true_iff. split.
    + intros H. apply Qnot_le_lt. intros Hle.
      apply Qle_bool_iff in Hle. congruence.
    + intros H. destruct (Qle_bool q 0) eqn:E; [|reflexivity].
      apply Qle_bool_iff in E. exfalso. exact (Qlt_not_le _ _ H E).
  - split; [discriminate | tauto].
  - split; auto.
  - split; [discriminate | tauto].
Qed.

Lemma positive_truthy (n : number) : gt_zero n = true -> truthy_number n = true.
Proof.
  destruct n as [q| | |]; cbn [gt_zero truthy_number]; try congruence.
  rewrite !negb_true_iff. intros H.
  destruct (Qeq_bool q 0) eqn:E; [|reflexivity].
  apply Qeq_bool_iff in E.
  assert (Hle : (q <= 0)%Q) by (rewrite E; apply Qle_refl).
  apply Qle_bool_iff in Hle. congruence.
Qed.

(** ** Runs of the operations *)

Lemma with_availableModels_same (this : OpenAiHandler) :
  with_availableModels this (availableModels this) = this.
Proof. now destruct this. Qed.

Section Runs.

Context {imports : Imports}.

Lemma createMessage_unfold srv systemPrompt msgs :
  createMessage srv systemPrompt msgs =
  (modelId <- resolveModelId srv ;;
   this <- get_this ;;
   converse srv (shapeRequest (options this) modelId systemPrompt msgs)).
Proof. reflexivity. Qed.

Lemma listModels_run srv this :
  listModels srv this =
  mkRun (Returned (listed srv)) this (ModelsListCall :: listingLog srv).
Proof.
  unfold listModels, listed, listingLog, client_models_list, try_catch, bind,
    perform, settle.
  destruct (models_list srv) as [[[models|]]|e]; reflexivity.
Qed.

Lemma onChunk_run chunk this :
  onChunk chunk this = mkRun (Returned tt) this (map Yield (chunkEvents chunk)).
Proof.
  unfold onChunk, chunkEvents, textEvents, reasoningEvents, usageEvents, firstDelta.
  destruct chunk as [cs u]; cbn [choices usage].
  destruct cs as [|[[[c r]|]] rest]; cbn [nth_error delta delta_content reasoning_content].
  - destruct u; reflexivity.
  - destruct c as [[|a s]|]; destruct r as [[[|a' s']|]|]; destruct u; reflexivity.
  - destruct u; reflexivity.
Qed.

Lemma for_each_onChunk_run cs this :
  for_each cs onChunk this =
  mkRun (Returned tt) this (map Yield (flat_map chunkEvents cs)).
Proof.
  induction cs as [|chunk cs IH]; [reflexivity|].
  cbn [for_each flat_map]. unfold bind at 1.
  rewrite onChunk_run. cbn [completion final trace].
  rewrite IH. cbn [completion final trace]. now rewrite map_app.
Qed.

Lemma converse_run srv req this :
  converse srv req this =
  match chat_completions_create srv req with
  | Resolves response =>
      mkRun (match breaks_with response with
             | Some e => Thrown e
             | None => Returned tt
             end)
            this
            (ChatCompletionsCreateCall req
               :: map Yield (flat_map chunkEvents (chunks response)))
  | Rejects e => mkRun (Thrown e) this [ChatCompletionsCreateCall req]
  end.
Proof.
  unfold converse, client_chat_completions_create, for_await.
  unfold bind at 1 2. cbn [perform completion final trace].
  destruct (chat_completions_create srv req) as [response|e];
    cbn [settle ret throw completion final trace]; [|reflexivity].
  unfold bind. rewrite for_each_onChunk_run. cbn [completion final trace].
  destruct (breaks_with response);
    cbn [ret throw completion final trace app]; now rewrite !app_nil_r.
Qed.

Lemma resolveModelId_explicit srv this :
  truthy (openAiModelId (options this)) = true ->
  resolveModelId srv this =
  mkRun (Returned (nullish (openAiModelId (options this)) "")) this [].
Proof.
  unfold resolveModelId, bind, get_this. cbn [completion final trace].
  destruct (openAiModelId (options this)) as [[|c s]|]; cbn; congruence.
Qed.

Lemma resolveModelId_default srv this :
  truthy (openAiModelId (options this)) = false ->
  resolveModelId srv this =
  mkRun (match refreshed srv this with
         | first :: _ => Returned first
         | [] => Thrown noModels
         end)
        (with_availableModels this (refreshed srv this))
        ((match availableModels this with
          | [] => ModelsListCall :: listingLog srv
          | _ :: _ => []
          end)
         ++ match refreshed srv this with
            | first :: _ => [ConsoleLog ("Using first available model: " ++ first)%string]
            | [] => []
            end).
Proof.
  intros Hid.
  assert (E : truthy_string (nullish (openAiModelId (options this)) "") = false).
  { destruct (openAiModelId (options this)) as [[|c s]|]; cbn in *; congruence. }
  unfold resolveModelId, bind at 1, get_this. cbn [completion final trace].
  rewrite E. cbn [negb]. unfold refreshed, with_availableModels.
  destruct this as [opts cl cache]. cbn [availableModels options client] in *.
  destruct cache as [|m cache].
  - unfold bind, when, try_catch. cbn [List.length Nat.eqb].
    rewrite listModels_run. cbn.
    destruct (listed srv); cbn; now rewrite ?app_nil_r.
  - reflexivity.
Qed.

(** The whole run of [createMessage], by the case of model resolution. *)
Lemma createMessage_explicit srv systemPrompt msgs this :
  truthy (openAiModelId (options this)) = true ->
  createMessage srv systemPrompt msgs this =
  converse srv
    (shapeRequest (options this) (nullish (openAiModelId (options this)) "")
       systemPrompt msgs) this.
Proof.
  intros Hid. rewrite createMessage_unfold. unfold bind at 1.
  rewrite (resolveModelId_explicit _ _ Hid). cbn [completion final trace].
  unfold bind, get_this. cbn [completion final trace].
  now destruct (converse _ _ this).
Qed.

Lemma createMessage_default srv systemPrompt msgs this :
  truthy (openAiModelId (options this)) = false ->
  createMessage srv systemPrompt msgs this =
  let this' := with_availableModels this (refreshed srv this) in
  let listing := match availableModels this with
                 | [] => ModelsListCall :: listingLog srv
                 | _ :: _ => []
                 end in
  match refreshed srv this with
  | first :: _ =>
      let r := converse srv (shapeRequest (options this) first systemPrompt msgs) this' in
      mkRun (completion r) (final r)
        (listing ++ ConsoleLog ("Using first available model: " ++ first)%string
           :: trace r)
  | [] => mkRun (Thrown noModels) this' listing
  end.
Proof.
  intros Hid. rewrite createMessage_unfold. unfold bind at 1.
  rewrite (resolveModelId_default _ _ Hid). cbn zeta.
  destruct (refreshed srv this) as [|first others]; cbn [completion final trace].
  - now rewrite app_nil_r.
  - unfold bind, get_this. cbn [completion final trace options with_availableModels].
    rewrite <- app_assoc. reflexivity.
Qed.

End Runs.

(** ** Observations on traces *)

Lemma yielded_app (t u : list Effect) : yielded (t ++ u) = yielded t ++ yielded u.
Proof. apply flat_map_app. Qed.

Lemma chat_requests_app (t u : list Effect) :
  chat_requests (t ++ u) = chat_requests t ++ chat_requests u.
Proof. apply flat_map_app. Qed.

Lemma models_list_calls_app (t u : list Effect) :
  models_list_calls (t ++ u) = models_list_calls t ++ models_list_calls u.
Proof. apply filter_app. Qed.

Lemma yielded_cons (e : Effect) (t : list Effect) :
  yielded (e :: t) =
  match e with
  | Yield ev => ev :: yielded t
  | _ => yielded t
  end.
Proof. now destruct e. Qed.

Lemma chat_requests_cons (e : Effect) (t : list Effect) :
  chat_requests (e :: t) =
  match e with
  | ChatCompletionsCreateCall req => req :: chat_requests t
  | _ => chat_requests t
  end.
Proof. now destruct e. Qed.

Lemma models_list_calls_cons (e : Effect) (t : list Effect) :
  models_list_calls (e :: t) =
  match e with
  | ModelsListCall => ModelsListCall :: models_list_calls t
  | _ => models_list_calls t
  end.
Proof. now destruct e. Qed.

Lemma yielded_nil : yielded [] = [].
Proof. reflexivity. Qed.

Lemma chat_requests_nil : chat_requests [] = [].
Proof. reflexivity. Qed.

Lemma models_list_calls_nil : models_list_calls [] = [].
Proof. reflexivity. Qed.

Lemma yielded_yields (evs : list ApiStreamChunk) : yielded (map Yield evs) = evs.
Proof.
  induction evs as [|ev evs IH]; [reflexivity|].
  cbn [map]. now rewrite yielded_cons, IH.
Qed.

Lemma chat_requests_yields (evs : list ApiStreamChunk) :
  chat_requests (map Yield evs) = [].
Proof. induction evs as [|ev evs IH]; [reflexivity | exact IH]. Qed.

Lemma models_list_calls_yields (evs : list ApiStreamChunk) :
  models_list_calls (map Yield evs) = [].
Proof. induction evs as [|ev evs IH]; [reflexivity | exact IH]. Qed.

Lemma listingLog_yielded (srv : Server) : yielded (listingLog srv) = [].
Proof. unfold listingLog. now destruct (models_list srv) as [[[models|]]|e]. Qed.

Lemma listingLog_chat_requests (srv : Server) : chat_requests (listingLog srv) = [].
Proof. unfold listingLog. now destruct (models_list srv) as [[[models|]]|e]. Qed.

Lemma listingLog_models_list_calls (srv : Server) :
  models_list_calls (listingLog srv) = [].
Proof. unfold listingLog. now destruct (models_list srv) as [[[models|]]|e]. Qed.

Arguments yielded : simpl never.
Arguments chat_requests : simpl never.
Arguments models_list_calls : simpl never.

Create Rewrite HintDb traces.
#[global] Hint Rewrite yielded_app chat_requests_app models_list_calls_app
  yielded_cons chat_requests_cons models_list_calls_cons
  yielded_nil chat_requests_nil models_list_calls_nil
  yielded_yields chat_requests_yields models_list_calls_yields
  listingLog_yielded listingLog_chat_requests listingLog_models_list_calls
  app_nil_r app_nil_l : traces.

Ltac observe := repeat (progress (autorewrite with traces; cbn beta iota)).

Section Conversations.

Context {imports : Imports}.

Lemma converse_final srv req this : final (converse srv req this) = this.
Proof.
  rewrite converse_run. now destruct (chat_completions_create srv req).
Qed.

Lemma converse_requests srv req this :
  chat_requests (trace (converse srv req this)) = [req].
Proof.
  rewrite converse_run.
  destruct (chat_completions_create srv req); cbn [trace]; now observe.
Qed.

Lemma converse_models_list_calls srv req this :
  models_list_calls (trace (converse srv req this)) = [].
Proof.
  rewrite converse_run.
  destruct (chat_completions_create srv req); cbn [trace]; now observe.
Qed.

Lemma converse_yielded srv req this :
  yielded (trace (converse srv req this)) =
  match chat_completions_create srv req with
  | Resolves response => flat_map chunkEvents (chunks response)
  | Rejects _ => []
  end.
Proof.
  rewrite converse_run.
  destruct (chat_completions_create srv req); cbn [trace]; now observe.
Qed.

(** Every request of a call is the shaping of the call's inputs for the
    model id it carries. *)
Lemma createMessage_requests srv systemPrompt msgs this req :
  In req (chat_requests (trace (createMessage srv systemPrompt msgs this))) ->
  req = shapeRequest (options this) (model req) systemPrompt msgs.
Proof.
  destruct (truthy (openAiModelId (options this))) eqn:Hid.
  - rewrite (createMessage_explicit _ _ _ _ Hid), converse_requests.
    intros [<-|[]]. reflexivity.
  - rewrite (createMessage_default _ _ _ _ Hid). cbn zeta.
    destruct (refreshed srv this) as [|first others]; cbn [trace].
    + destruct (availableModels this); observe; intros [].
    + destruct (availableModels this); observe; rewrite converse_requests;
        intros [<-|[]]; reflexivity.
Qed.

End Conversations.

(** ** Model-id resolution *)

Section Resolution.

Context {imports : Imports}.

(** C1. Model-id resolution of the streamed chat completion: a configured
    (non-empty) explicit id is the id of the request; without one, an empty
    cache is refreshed by one listing call, whose failure leaves it empty;
    then the first cached id is the id of the request, and with the cache
    still empty the call throws the "no models available" error without
    having issued a chat-completion request. *)
Theorem C1_model_id_resolution srv systemPrompt msgs this :
  let r := createMessage srv systemPrompt msgs this in
  (forall modelId : string,
      openAiModelId (options this) = Some modelId -> modelId <> "" ->
      chat_requests (trace r) =
        [shapeRequest (options this) modelId systemPrompt msgs] /\
      model (shapeRequest (options this) modelId systemPrompt msgs) = modelId) /\
  (truthy (openAiModelId (options this)) = false ->
     (availableModels this = [] ->
        models_list_calls (trace r) = [ModelsListCall] /\
        availableModels (final r) = listed srv) /\
     (availableModels this <> [] ->
        models_list_calls (trace r) = [] /\
        availableModels (final r) = availableModels this) /\
     (forall first others,
        availableModels (final r) = first :: others ->
        chat_requests (trace r) =
          [shapeRequest (options this) first systemPrompt msgs] /\
        model (shapeRequest (options this) first systemPrompt msgs) = first) /\
     (availableModels (final r) = [] ->
        completion r = Thrown noModels /\
        chat_requests (trace r) = [] /\
        yielded (trace r) = [])) /\
  (forall e, models_list srv = Rejects e -> listed srv = []).
Proof.
  cbn zeta. split; [|split].
  - intros modelId Hid Hne.
    assert (Ht : truthy (openAiModelId (options this)) = true).
    { apply truthy_iff. now exists modelId. }
    rewrite (createMessage_explicit _ _ _ _ Ht), converse_requests, Hid.
    now split.
  - intros Hid. rewrite (createMessage_default _ _ _ _ Hid). cbn zeta.
    unfold refreshed.
    destruct (availableModels this) as [|m cache] eqn:Hcache;
      [destruct (listed srv) as [|first others] eqn:Hlisted|];
      cbn [completion final trace availableModels with_availableModels app];
      rewrite ?converse_final;
      cbn [availableModels with_availableModels];
      repeat split; try congruence; observe;
      rewrite ?converse_models_list_calls, ?converse_requests;
      try reflexivity;
      match goal with
      | E : _ :: _ = _ :: _ |- _ => now inversion E
      end.
  - intros e He. unfold listed. now rewrite He.
Qed.

End Resolution.

(** ** Stream events *)

Lemma textEvents_iff (chunk : ChatCompletionChunk) (ev : ApiStreamChunk) :
  In ev (textEvents chunk) <->
  exists d s, firstDelta chunk = Some d /\ delta_content d = Some s /\
              s <> "" /\ ev = TextChunk s.
Proof.
  unfold textEvents. split.
  - destruct (firstDelta chunk) as [d|]; [|intros []].
    destruct (delta_content d) as [[|c s]|] eqn:Hc; try (now intros []).
    intros [<-|[]]. exists d, (String c s). repeat split; congruence.
  - intros (d & s & -> & -> & Hs & ->). destruct s; [congruence | now left].
Qed.

Lemma reasoningEvents_iff (chunk : ChatCompletionChunk) (ev : ApiStreamChunk) :
  In ev (reasoningEvents chunk) <->
  exists d s, firstDelta chunk = Some d /\ reasoning_content d = Some (Some s) /\
              s <> "" /\ ev = ReasoningChunk s.
Proof.
  unfold reasoningEvents. split.
  - destruct (firstDelta chunk) as [d|]; [|intros []].
    destruct (reasoning_content d) as [[[|c s]|]|] eqn:Hc; try (now intros []).
    intros [<-|[]]. exists d, (String c s). repeat split; congruence.
  - intros (d & s & -> & -> & Hs & ->). destruct s; [congruence | now left].
Qed.

Lemma usageEvents_iff (chunk : ChatCompletionChunk) (ev : ApiStreamChunk) :
  In ev (usageEvents chunk) <->
  exists u, usage chunk = Some u /\
            ev = UsageChunk (or_zero (prompt_tokens u)) (or_zero (completion_tokens u)).
Proof.
  unfold usageEvents. split.
  - destruct (usage chunk) as [u|]; [|intros []].
    intros [<-|[]]. now exists u.
  - intros (u & -> & ->). now left.
Qed.

Section Events.

Context {imports : Imports}.

(** The events of a call are those of the chunks of the response to its
    request. *)
Lemma createMessage_yielded srv systemPrompt msgs this req :
  In req (chat_requests (trace (createMessage srv systemPrompt msgs this))) ->
  yielded (trace (createMessage srv systemPrompt msgs this)) =
  match chat_completions_create srv req with
  | Resolves response => flat_map chunkEvents (chunks response)
  | Rejects _ => []
  end.
Proof.
  destruct (truthy (openAiModelId (options this))) eqn:Hid.
  - rewrite (createMessage_explicit _ _ _ _ Hid), converse_requests, converse_yielded.
    now intros [<-|[]].
  - rewrite (createMessage_default _ _ _ _ Hid). cbn zeta.
    destruct (refreshed srv this) as [|first others]; cbn [trace].
    + destruct (availableModels this); observe; intros [].
    + destruct (availableModels this); observe;
        rewrite converse_requests, converse_yielded; now intros [<-|[]].
Qed.

(** C2. Stream-event mapping.  A chunk is processed without failure and
    yields, in this order, a text event exactly when the first choice's
    delta carries content (a non-empty string), a reasoning event exactly
    when that delta has the vendor reasoning field with a non-empty string,
    and a usage event exactly when the chunk carries usage totals, a
    missing count being zero.  The events of a call are those of its
    response's chunks in stream order; for the stream of the three chunks
    "Hello", "thinking", usage 10/5 they are exactly text, reasoning, usage,
    and the call then returns with nothing more yielded. *)
Theorem C2_stream_event_mapping :
  (forall chunk this,
      let r := onChunk chunk this in
      completion r = Returned tt /\
      yielded (trace r) =
        textEvents chunk ++ reasoningEvents chunk ++ usageEvents chunk /\
      (forall s, In (TextChunk s) (yielded (trace r)) <->
                 exists d, firstDelta chunk = Some d /\
                           delta_content d = Some s /\ s <> "") /\
      (forall s, In (ReasoningChunk s) (yielded (trace r)) <->
                 exists d, firstDelta chunk = Some d /\
                           reasoning_content d = Some (Some s) /\ s <> "") /\
      (forall i o, In (UsageChunk i o) (yielded (trace r)) <->
                   exists u, usage chunk = Some u /\
                             i = or_zero (prompt_tokens u) /\
                             o = or_zero (completion_tokens u)) /\
      (forall ev, In ev (textEvents chunk) -> exists s, ev = TextChunk s) /\
      (forall ev, In ev (reasoningEvents chunk) -> exists s, ev = ReasoningChunk s) /\
      (forall ev, In ev (usageEvents chunk) -> exists i o, ev = UsageChunk i o) /\
      (List.length (textEvents chunk) <= 1 /\
       List.length (reasoningEvents chunk) <= 1 /\
       List.length (usageEvents chunk) <= 1)%nat) /\
  or_zero None = Num 0 /\
  (forall srv systemPrompt msgs this req response,
      In req (chat_requests (trace (createMessage srv systemPrompt msgs this))) ->
      chat_completions_create srv req = Resolves response ->
      yielded (trace (createMessage srv systemPrompt msgs this)) =
        flat_map chunkEvents (chunks response)) /\
  (forall srv systemPrompt msgs this,
      truthy (openAiModelId (options this)) = true ->
      (forall req, chat_completions_create srv req =
                   Resolves (mkStream threeChunks None)) ->
      let r := createMessage srv systemPrompt msgs this in
      yielded (trace r) =
        [TextChunk "Hello"; ReasoningChunk "thinking"; UsageChunk (Num 10) (Num 5)] /\
      completion r = Returned tt).
Proof.
  split; [|split; [reflexivity|split]].
  - intros chunk this. cbn zeta. rewrite onChunk_run. cbn [completion trace].
    rewrite yielded_yields. unfold chunkEvents.
    split; [reflexivity|]. split; [reflexivity|].
    split; [|split; [|split; [|split; [|split; [|split]]]]].
    + intros s. rewrite !in_app_iff, textEvents_iff, reasoningEvents_iff,
        usageEvents_iff. split.
      * intros [(d & s' & Hd & Hc & Hs & E) | [(d & s' & _ & _ & _ & E) | (u & _ & E)]];
          try discriminate.
        inversion E; subst. now exists d.
      * intros (d & Hd & Hc & Hs). left. now exists d, s.
    + intros s. rewrite !in_app_iff, textEvents_iff, reasoningEvents_iff,
        usageEvents_iff. split.
      * intros [(d & s' & _ & _ & _ & E) | [(d & s' & Hd & Hc & Hs & E) | (u & _ & E)]];
          try discriminate.
        inversion E; subst. now exists d.
      * intros (d & Hd & Hc & Hs). right. left. now exists d, s.
    + intros i o. rewrite !in_app_iff, textEvents_iff, reasoningEvents_iff,
        usageEvents_iff. split.
      * intros [(d & s' & _ & _ & _ & E) | [(d & s' & _ & _ & _ & E) | (u & Hu & E)]];
          try discriminate.
        inversion E; subst. now exists u.
      * intros (u & Hu & -> & ->). right. right. now exists u.
    + intros ev H. apply textEvents_iff in H as (d & s & _ & _ & _ & ->). now exists s.
    + intros ev H. apply reasoningEvents_iff in H as (d & s & _ & _ & _ & ->).
      now exists s.
    + intros ev H. apply usageEvents_iff in H as (u & _ & ->). now eexists _, _.
    + unfold textEvents, reasoningEvents, usageEvents.
      destruct (firstDelta chunk) as [[[[|c s]|] [[[|c' s']|]|]]|];
        destruct (usage chunk); cbn; lia.
  - intros srv systemPrompt msgs this req response Hreq Hresp.
    now rewrite (createMessage_yielded _ _ _ _ _ Hreq), Hresp.
  - intros srv systemPrompt msgs this Hid Hsrv. cbn zeta.
    rewrite (createMessage_explicit _ _ _ _ Hid), converse_run, Hsrv.
    cbn [completion trace chunks breaks_with]. observe. now split.
Qed.

(** C10. A chunk whose choices are empty, or whose first choice has no
    delta, is processed without failure: it yields no text and no reasoning
    event, and exactly the usage event when it carries usage totals. *)
Theorem C10_chunk_without_delta chunk this :
  choices chunk = [] \/ (exists rest, choices chunk = mkChoice None :: rest) ->
  let r := onChunk chunk this in
  completion r = Returned tt /\
  final r = this /\
  (forall s, ~ In (TextChunk s) (yielded (trace r))) /\
  (forall s, ~ In (ReasoningChunk s) (yielded (trace r))) /\
  (forall u, usage chunk = Some u ->
             yielded (trace r) =
             [UsageChunk (or_zero (prompt_tokens u)) (or_zero (completion_tokens u))]) /\
  (usage chunk = None -> yielded (trace r) = []).
Proof.
  intros Hchoices. cbn zeta. rewrite onChunk_run. cbn [completion final trace].
  rewrite yielded_yields.
  assert (Hd : firstDelta chunk = None).
  { unfold firstDelta. destruct Hchoices as [-> | [rest ->]]; reflexivity. }
  unfold chunkEvents, textEvents, reasoningEvents, usageEvents. rewrite Hd.
  cbn [app]. repeat split.
  - intros s H. destruct (usage chunk); cbn in H; [destruct H as [H|[]]|]; easy.
  - intros s H. destruct (usage chunk); cbn in H; [destruct H as [H|[]]|]; easy.
  - now intros u ->.
  - now intros ->.
Qed.

End Events.

(** C10 at the final chunk of a stream, which has no choices and carries the
    usage totals. *)
Lemma C10_chunk_without_delta_witness :
  let chunk := mkChunk [] (Some (mkUsage (Some (Num 10)) None)) in
  let this := constructor (imports := Sample.imports) (Sample.optionsFor None None) in
  let r := onChunk chunk this in
  completion r = Returned tt /\
  final r = this /\
  (forall s, ~ In (TextChunk s) (yielded (trace r))) /\
  (forall s, ~ In (ReasoningChunk s) (yielded (trace r))) /\
  (forall u, usage chunk = Some u ->
             yielded (trace r) =
             [UsageChunk (or_zero (prompt_tokens u)) (or_zero (completion_tokens u))]) /\
  (usage chunk = None -> yielded (trace r) = []).
Proof.
  cbn zeta. apply C10_chunk_without_delta. left. reflexivity.
Defined.

(** ** Request shaping *)

Section Shaping.

Context {imports : Imports}.

Lemma shapeRequest_model opts modelId systemPrompt msgs :
  model (shapeRequest opts modelId systemPrompt msgs) = modelId.
Proof. reflexivity. Qed.

Lemma shapeRequest_messages opts modelId systemPrompt msgs :
  messages (shapeRequest opts modelId systemPrompt msgs) =
  if includes modelId "o3-mini" then
    mkChatMessage Developer systemPrompt :: convertToOpenAiMessages msgs
  else if includes modelId "deepseek-reasoner" ||
          nullish (match openAiModelInfo opts with
                   | Some info => isR1FormatRequired info
                   | None => None
                   end) false then
    convertToR1Format (mkMessageParam RoleUser systemPrompt :: msgs)
  else
    mkChatMessage System systemPrompt :: convertToOpenAiMessages msgs.
Proof. reflexivity. Qed.

Lemma shapeRequest_temperature opts modelId systemPrompt msgs :
  req_temperature (shapeRequest opts modelId systemPrompt msgs) =
  if includes modelId "o3-mini" then None
  else match (match openAiModelInfo opts with
              | Some info => temperature info
              | None => None
              end) with
       | Some t => Some t
       | None => temperature openAiModelInfoSaneDefaults
       end.
Proof. reflexivity. Qed.

Lemma shapeRequest_reasoning_effort opts modelId systemPrompt msgs :
  reasoning_effort (shapeRequest opts modelId systemPrompt msgs) =
  if includes modelId "o3-mini"
  then Some (or_string (o3MiniReasoningEffort opts) "medium")
  else None.
Proof. reflexivity. Qed.

Lemma shapeRequest_max_tokens opts modelId systemPrompt msgs :
  max_tokens (shapeRequest opts modelId systemPrompt msgs) =
  match metadataMaxTokens opts with
  | Some n => if truthy_number n && gt_zero n then Some n else None
  | None => None
  end.
Proof. reflexivity. Qed.

(** C3. o3-mini shaping and its precedence: when the model id of the
    request contains "o3-mini", the request carries no temperature, its
    messages are the standard layout with the system instruction under the
    developer role, and its reasoning effort is the configured preference,
    or "medium" when none is set; nothing is asked of the DeepSeek pattern,
    so this holds for ids that match it too. *)
Theorem C3_o3_mini_shaping srv systemPrompt msgs this req :
  In req (chat_requests (trace (createMessage srv systemPrompt msgs this))) ->
  occurs_in "o3-mini" (model req) ->
  req_temperature req = None /\
  messages req = mkChatMessage Developer systemPrompt :: convertToOpenAiMessages msgs /\
  reasoning_effort req =
    Some (or_string (o3MiniReasoningEffort (options this)) "medium") /\
  (forall effort, o3MiniReasoningEffort (options this) = Some effort ->
                  effort <> "" -> reasoning_effort req = Some effort) /\
  (o3MiniReasoningEffort (options this) = None ->
   reasoning_effort req = Some "medium").
Proof.
  intros Hreq Ho3. apply includes_occurs in Ho3.
  rewrite (createMessage_requests _ _ _ _ _ Hreq).
  rewrite shapeRequest_temperature, shapeRequest_messages,
    shapeRequest_reasoning_effort, Ho3.
  repeat split.
  - intros effort -> Hne. destruct effort; [congruence | reflexivity].
  - now intros ->.
Qed.

(** C4, as amended. DeepSeek/R1 reshaping: when the model id of the request
    contains "deepseek-reasoner" or the metadata flag is set, and the id
    does not contain "o3-mini", the messages of the request are the
    alternate layout of the conversation led by the system instruction as
    a user-role message. *)
Theorem C4_r1_reshaping srv systemPrompt msgs this req :
  In req (chat_requests (trace (createMessage srv systemPrompt msgs this))) ->
  occurs_in "deepseek-reasoner" (model req) \/ r1FormatRequired (options this) ->
  ~ occurs_in "o3-mini" (model req) ->
  messages req = convertToR1Format (mkMessageParam RoleUser systemPrompt :: msgs).
Proof.
  intros Hreq Hr1 Ho3.
  rewrite (createMessage_requests _ _ _ _ _ Hreq).
  rewrite shapeRequest_messages.
  destruct (includes (model req) "o3-mini") eqn:E.
  - exfalso. apply Ho3. now apply includes_occurs.
  - destruct Hr1 as [Hds | (info & -> & ->)].
    + apply includes_occurs in Hds. now rewrite Hds.
    + cbn [nullish]. now rewrite orb_true_r.
Qed.

(** C6. Max-tokens forwarding: the request carries the metadata value as
    its maximum of output tokens exactly when that value is a number
    greater than zero, and carries none when the value is zero, negative,
    not a number, or absent. *)
Theorem C6_max_tokens_forwarding srv systemPrompt msgs this req :
  In req (chat_requests (trace (createMessage srv systemPrompt msgs this))) ->
  (forall n, metadataMaxTokens (options this) = Some n -> positive n ->
             max_tokens req = Some n) /\
  (forall n, metadataMaxTokens (options this) = Some n -> ~ positive n ->
             max_tokens req = None) /\
  (metadataMaxTokens (options this) = None -> max_tokens req = None) /\
  (forall n, max_tokens req = Some n <->
             metadataMaxTokens (options this) = Some n /\ positive n).
Proof.
  intros Hreq. rewrite (createMessage_requests _ _ _ _ _ Hreq).
  rewrite shapeRequest_max_tokens.
  assert (Hpos : forall n, positive n -> truthy_number n && gt_zero n = true).
  { intros n Hn. apply gt_zero_positive in Hn.
    now rewrite (positive_truthy _ Hn), Hn. }
  assert (Hneg : forall n, ~ positive n -> truthy_number n && gt_zero n = false).
  { intros n Hn. destruct (gt_zero n) eqn:E.
    - exfalso. apply Hn. now apply gt_zero_positive.
    - apply andb_false_r. }
  split; [|split; [|split]].
  - intros n -> Hn. now rewrite (Hpos _ Hn).
  - intros n -> Hn. now rewrite (Hneg _ Hn).
  - now intros ->.
  - intros n. destruct (metadataMaxTokens (options this)) as [m|].
    + destruct (truthy_number m && gt_zero m) eqn:E; split.
      * intros [= <-]. apply andb_true_iff in E.
        split; [reflexivity | now apply gt_zero_positive].
      * now intros [-> _].
      * discriminate.
      * intros [[= <-] Hn]. rewrite (Hpos _ Hn) in E. discriminate.
    + split; [discriminate | now intros [? _]].
Qed.

End Shaping.

(** ** Construction *)

Section Construction.

Context {imports : Imports}.

Lemma gatewayHost_includes opts :
  gatewayHost opts <->
  match openAiBaseUrl opts with
  | Some url => includes (toLowerCase url) "azure.com"
  | None => false
  end = true.
Proof.
  unfold gatewayHost. destruct (openAiBaseUrl opts) as [url|].
  - rewrite includes_occurs. split.
    + now intros (u & [= <-] & H).
    + intros H. now exists url.
  - split; [intros (u & E & _); discriminate | discriminate].
Qed.

(** C5. Client-variant selection at construction: the enterprise-gateway
    (Azure) client is built if and only if an explicit API version is
    present or the base URL contains the gateway host; its API version is
    the explicit one, or the fixed fallback when only the URL forces the
    variant; otherwise the standard client is built.  Both take the base
    URL and the API key, an absent key being the empty string. *)
Theorem C5_client_variant opts :
  let apiKey := or_string (openAiApiKey opts) "" in
  (isAzure (client (constructor opts)) = true <->
   versionGiven opts \/ gatewayHost opts) /\
  (forall v, azureApiVersion opts = Some v -> v <> "" ->
             client (constructor opts) = AzureOpenAI (openAiBaseUrl opts) apiKey v) /\
  (~ versionGiven opts -> gatewayHost opts ->
   client (constructor opts) =
     AzureOpenAI (openAiBaseUrl opts) apiKey azureOpenAiDefaultApiVersion) /\
  (~ (versionGiven opts \/ gatewayHost opts) ->
   client (constructor opts) = OpenAI (openAiBaseUrl opts) apiKey).
Proof.
  cbn zeta. unfold constructor. cbn [client].
  assert (Hv : versionGiven opts <-> truthy (azureApiVersion opts) = true).
  { unfold versionGiven. now rewrite truthy_iff. }
  pose proof (gatewayHost_includes opts) as Hg.
  destruct (truthy (azureApiVersion opts)) eqn:Ev;
    destruct (match openAiBaseUrl opts with
              | Some url => includes (toLowerCase url) "azure.com"
              | None => false
              end) eqn:Eu;
    cbn [orb isAzure]; (split; [|split; [|split]]);
    try tauto;
    try (intros v Hsome Hne; rewrite Hsome in *;
         destruct v; cbn in *; congruence);
    try (intros Hno _;
         destruct (azureApiVersion opts) as [[|c s]|]; cbn in *;
         reflexivity || congruence);
    try (split; [discriminate | intros [H|H]; [apply Hv in H | apply Hg in H];
                                discriminate]).
Qed.

End Construction.

(** ** Model listing and the cache *)

Section Cache.

Context {imports : Imports}.

(** C7. List-models total fallback: the listing returns the ids mapped from
    the entries of the response, and returns the empty list when the
    listing call fails (or its response has no entries to map); it never
    throws, and leaves the adapter as it was. *)
Theorem C7_list_models_total srv this :
  let r := listModels srv this in
  (forall page models,
      models_list srv = Resolves page -> data page = Some models ->
      completion r = Returned (map id models)) /\
  (forall e, models_list srv = Rejects e -> completion r = Returned []) /\
  (forall page,
      models_list srv = Resolves page -> data page = None ->
      completion r = Returned []) /\
  (forall e, completion r <> Thrown e) /\
  (exists ids, completion r = Returned ids) /\
  final r = this.
Proof.
  cbn zeta. rewrite listModels_run. cbn [completion final]. unfold listed.
  repeat split.
  - now intros page models -> ->.
  - now intros e ->.
  - now intros page -> ->.
  - discriminate.
  - eauto.
Qed.

Lemma createMessage_final srv systemPrompt msgs this :
  final (createMessage srv systemPrompt msgs this) =
  if truthy (openAiModelId (options this)) then this
  else with_availableModels this (refreshed srv this).
Proof.
  destruct (truthy (openAiModelId (options this))) eqn:Hid.
  - now rewrite (createMessage_explicit _ _ _ _ Hid), converse_final.
  - rewrite (createMessage_default _ _ _ _ Hid). cbn zeta.
    destruct (refreshed srv this); cbn [final]; now rewrite ?converse_final.
Qed.

Lemma createMessage_keeps_cache srv systemPrompt msgs this :
  availableModels this <> [] ->
  final (createMessage srv systemPrompt msgs this) = this.
Proof.
  intros Hne. rewrite createMessage_final.
  destruct (truthy (openAiModelId (options this))); [reflexivity|].
  unfold refreshed. destruct (availableModels this) eqn:E; [congruence|].
  rewrite <- E. apply with_availableModels_same.
Qed.

Lemma step_keeps_cache op this :
  availableModels this <> [] -> step op this = this.
Proof.
  intros Hne. destruct op as [srv systemPrompt msgs|srv| |]; cbn [step].
  - now apply createMessage_keeps_cache.
  - now rewrite listModels_run.
  - reflexivity.
  - reflexivity.
Qed.

(** The priming writes whatever the listing delivers. *)
Lemma initializeModelList_final srv this :
  final (initializeModelList srv this) = with_availableModels this (listed srv) /\
  completion (initializeModelList srv this) = Returned tt.
Proof.
  unfold initializeModelList, try_catch, bind, set_availableModels, get_this,
    perform, with_availableModels.
  rewrite listModels_run. now cbn [completion final trace].
Qed.

Lemma listModels_settled_run srv this :
  listModels_settled srv this = mkRun (Returned (listed srv)) this (listingLog srv).
Proof.
  unfold listModels_settled, listed, listingLog, try_catch, bind, perform, settle.
  destruct (models_list srv) as [[[models|]]|e]; reflexivity.
Qed.

(** The listing is the listing call followed by what happens when it
    settles; so are the priming and a call that waits for its refresh. *)
Lemma listModels_split srv this :
  listModels srv this = (perform ModelsListCall ;; listModels_settled srv) this.
Proof.
  rewrite listModels_run. unfold bind, perform. cbn [completion final trace].
  now rewrite listModels_settled_run.
Qed.

Lemma primingSettles_run srv this :
  primingSettles srv this =
  mkRun (Returned tt) (with_availableModels this (listed srv))
    (listingLog srv
       ++ [ConsoleLog ("Retrieved " ++ of_length (List.length (listed srv))
                         ++ " models from the server")%string]).
Proof.
  unfold primingSettles, try_catch, bind, set_availableModels, get_this, perform,
    with_availableModels.
  rewrite listModels_settled_run. cbn [completion final trace availableModels].
  cbn [app]. reflexivity.
Qed.

Lemma initializeModelList_split srv this :
  initializeModelList srv this = (perform ModelsListCall ;; primingSettles srv) this.
Proof.
  unfold bind at 1, perform at 1. cbn [completion final trace].
  rewrite primingSettles_run. cbn [completion final trace app].
  unfold initializeModelList, try_catch, bind, set_availableModels, get_this,
    perform, with_availableModels.
  rewrite listModels_run. cbn [completion final trace availableModels].
  cbn [app]. reflexivity.
Qed.

Lemma refreshSettles_run srv systemPrompt msgs this :
  refreshSettles srv systemPrompt msgs this =
  let this' := with_availableModels this (listed srv) in
  match listed srv with
  | first :: _ =>
      let r := converse srv (shapeRequest (options this) first systemPrompt msgs) this' in
      mkRun (completion r) (final r)
        (listingLog srv ++ ConsoleLog ("Using first available model: " ++ first)%string
           :: trace r)
  | [] => mkRun (Thrown noModels) this' (listingLog srv)
  end.
Proof.
  unfold refreshSettles, try_catch, bind at 1 2 3, set_availableModels,
    with_availableModels.
  rewrite listModels_settled_run. cbn [completion final trace].
  unfold bind at 1, get_this at 1. cbn [completion final trace availableModels].
  destruct (listed srv) as [|first others].
  - unfold bind, throw. cbn [completion final trace]. now rewrite !app_nil_r.
  - unfold bind, perform, ret, get_this.
    cbn [completion final trace options app]. now rewrite !app_nil_r.
Qed.

Lemma awaitsRefresh_iff this :
  awaitsRefresh this = true <->
  truthy (openAiModelId (options this)) = false /\ availableModels this = [].
Proof.
  unfold awaitsRefresh.
  destruct (openAiModelId (options this)) as [[|c s]|];
    destruct (availableModels this); cbn; intuition congruence.
Qed.

Lemma createMessage_split srv systemPrompt msgs this :
  awaitsRefresh this = true ->
  createMessage srv systemPrompt msgs this =
  (perform ModelsListCall ;; refreshSettles srv systemPrompt msgs) this.
Proof.
  intros H. apply awaitsRefresh_iff in H as [Hid Hcache].
  rewrite (createMessage_default _ _ _ _ Hid). cbn zeta. unfold refreshed.
  rewrite Hcache. unfold bind at 1, perform at 1. cbn [completion final trace].
  rewrite refreshSettles_run. cbn zeta.
  now destruct (listed srv).
Qed.

Lemma settlements_write srv systemPrompt msgs this :
  final (primingSettles srv this) = with_availableModels this (listed srv) /\
  final (refreshSettles srv systemPrompt msgs this)
    = with_availableModels this (listed srv).
Proof.
  rewrite primingSettles_run, refreshSettles_run. cbn zeta.
  destruct (listed srv); cbn [final]; now rewrite ?converse_final.
Qed.

Lemma lifeStep_settled e l l' :
  priming l = false -> waiting l = [] -> availableModels (adapter l) <> [] ->
  lifeStep e l = Some l' -> l' = l.
Proof.
  intros Hp Hw Hne. destruct l as [this p w]. cbn [adapter priming waiting] in *.
  subst p w. destruct e as [op|srv|position srv]; cbn [lifeStep adapter priming waiting].
  - assert (Ha : awaitsRefresh this = false).
    { destruct (awaitsRefresh this) eqn:E; [|reflexivity].
      apply awaitsRefresh_iff in E as [_ E]. congruence. }
    destruct op as [srv systemPrompt msgs|srv| |];
      rewrite ?Ha, ?createMessage_keeps_cache, ?step_keeps_cache by assumption;
      now intros [= <-].
  - discriminate.
  - destruct position; discriminate.
Qed.

Lemma lifeSteps_settled events l l' :
  priming l = false -> waiting l = [] -> availableModels (adapter l) <> [] ->
  lifeSteps events l = Some l' -> l' = l.
Proof.
  intros Hp Hw Hne. induction events as [|e events IH]; cbn [lifeSteps].
  - now intros [= <-].
  - destruct (lifeStep e l) as [l1|] eqn:E; [|discriminate].
    apply (lifeStep_settled _ _ _ Hp Hw Hne) in E. subst l1. exact IH.
Qed.

(** C8, as amended. Cache stability: once the cache is non-empty and no
    listing started earlier is still awaited (the priming has settled and no
    call waits for a refresh), nothing that happens to the adapter changes
    the cache, so it is never emptied: a call waits for a refresh only when
    it finds the cache empty, chat completion run to its end writes the cache
    only when it was empty, and the listing never writes it.  A listing that
    is still awaited, of the priming or of a call, writes what it delivers
    when it settles, whatever the cache holds by then. *)
Theorem C8_cache_stability events l l' :
  priming l = false ->
  waiting l = [] ->
  availableModels (adapter l) <> [] ->
  lifeSteps events l = Some l' ->
  adapter l' = adapter l /\
  availableModels (adapter l') <> [] /\
  priming l' = false /\
  waiting l' = [] /\
  (forall this, awaitsRefresh this = true -> availableModels this = []) /\
  (forall srv systemPrompt msgs h,
      availableModels (final (createMessage srv systemPrompt msgs h))
        <> availableModels h ->
      availableModels h = []) /\
  (forall srv h, final (listModels srv h) = h) /\
  (forall opts, availableModels (constructor opts) = []) /\
  (forall srv systemPrompt msgs h,
      availableModels (final (primingSettles srv h)) = listed srv /\
      availableModels (final (refreshSettles srv systemPrompt msgs h)) = listed srv).
Proof.
  intros Hp Hw Hne Hrun.
  apply (lifeSteps_settled _ _ _ Hp Hw Hne) in Hrun. subst l'.
  repeat split; try assumption.
  - intros this H. now apply awaitsRefresh_iff in H.
  - intros srv systemPrompt msgs h Hchanged.
    destruct (availableModels h) as [|m cache] eqn:E; [reflexivity|].
    exfalso. apply Hchanged.
    rewrite createMessage_keeps_cache; congruence.
  - intros srv h. now rewrite listModels_run.
  - now rewrite (proj1 (settlements_write srv systemPrompt msgs h)).
  - now rewrite (proj2 (settlements_write srv systemPrompt msgs h)).
Qed.

(** C9. Frame property under an explicit model id: with a non-empty
    configured id, chat completion makes no model-listing call and leaves
    the adapter, and so the cached model list, unchanged. *)
Theorem C9_explicit_id_frame srv systemPrompt msgs this :
  (exists modelId, openAiModelId (options this) = Some modelId /\ modelId <> "") ->
  let r := createMessage srv systemPrompt msgs this in
  models_list_calls (trace r) = [] /\
  final r = this /\
  availableModels (final r) = availableModels this.
Proof.
  intros Hid. apply truthy_iff in Hid. cbn zeta.
  rewrite (createMessage_explicit _ _ _ _ Hid), converse_models_list_calls,
    converse_final.
  now repeat split.
Qed.

End Cache.

(** ** Concrete runs *)

Module Runs.

Import Sample.

(** The three chunks of the spec, under an explicit model id. *)
Example three_chunks_run :
  let r := call (server [] threeChunks) (handler (Some "gpt-4o") None) in
  yielded (trace r) =
    [TextChunk "Hello"; ReasoningChunk "thinking"; UsageChunk (Num 10) (Num 5)] /\
  completion r = Returned tt /\
  chat_requests (trace r) =
    [mkRequest "gpt-4o"
       [mkChatMessage System "Be brief."; mkChatMessage User "Hi"]
       (Some (Num 0)) None None true true].
Proof. repeat split. Qed.

(** A first chunk with empty content yields nothing. *)
Example empty_content_run :
  yielded (trace (onChunk
                    (mkChunk [mkChoice (Some (mkDelta (Some "") None))] None)
                    (handler None None))) = [].
Proof. reflexivity. Qed.

(** No explicit id, empty cache: the listing is called once and its first
    id becomes the model of the request. *)
Example default_model_run :
  let r := call (server ["llama-3"; "qwen"] []) (handler None None) in
  trace r =
    [ModelsListCall;
     ConsoleLog "Using first available model: llama-3";
     ChatCompletionsCreateCall
       (mkRequest "llama-3"
          [mkChatMessage System "Be brief."; mkChatMessage User "Hi"]
          (Some (Num 0)) None None true true)] /\
  availableModels (final r) = ["llama-3"; "qwen"] /\
  completion r = Returned tt.
Proof. repeat split. Qed.

(** No explicit id, and the server is down: the call throws before any
    chat-completion request. *)
Example no_models_run :
  let r := call unreachable (handler (Some "") None) in
  completion r = Thrown noModels /\
  trace r =
    [ModelsListCall;
     ConsoleError "Error fetching model list:" "connect ECONNREFUSED"] /\
  availableModels (final r) = [].
Proof. repeat split. Qed.

(** Construction primes the cache; a failed priming leaves it empty. *)
Example priming_run :
  availableModels (final (new_OpenAiHandler (imports := imports)
                            (server ["llama-3"] []) (optionsFor None None)))
    = ["llama-3"] /\
  availableModels (final (new_OpenAiHandler (imports := imports)
                            unreachable (optionsFor None None))) = [] /\
  completion (new_OpenAiHandler (imports := imports)
                unreachable (optionsFor None None)) = Returned tt.
Proof. repeat split. Qed.

(** The listing maps the entries to their ids, and is empty when the server
    is down. *)
Example listing_run :
  completion (listModels (server ["llama-3"; "qwen"] []) (handler None None))
    = Returned ["llama-3"; "qwen"] /\
  listModels unreachable (handler None None)
    = mkRun (Returned []) (handler None None)
        [ModelsListCall;
         ConsoleError "Error fetching model list:" "connect ECONNREFUSED"].
Proof. split; reflexivity. Qed.

(** Zero and negative limits are not forwarded. *)
Example max_tokens_run :
  let limit n := Some (mkModelInfo (Some (Num n)) None None) in
  map (fun n => map max_tokens
                  (chat_requests (trace (call (server [] [])
                                           (handler (Some "gpt-4o") (limit n))))))
      [0; -1; 4096]%Q
  = [[None]; [None]; [Some (Num 4096)]].
Proof. reflexivity. Qed.

(** The client of a gateway URL, in capitals and without a version. *)
Example azure_by_url_run :
  client (constructor (imports := imports)
            (mkOptions (Some "key") (Some "https://corp.OpenAI.AZURE.com/v1")
               None None None None))
  = AzureOpenAI (Some "https://corp.OpenAI.AZURE.com/v1") "key" "2024-08-01-preview".
Proof. reflexivity. Qed.

Example standard_client_run :
  client (handler None None) = OpenAI (Some "http://localhost:1234/v1") "".
Proof. reflexivity. Qed.

End Runs.

(** C3 at a model id that matches both patterns, with no preference set. *)
Lemma C3_o3_mini_shaping_witness :
  let this := Sample.handler (Some "deepseek-reasoner-o3-mini") None in
  let srv := Sample.server [] threeChunks in
  let req := mkRequest "deepseek-reasoner-o3-mini"
               [mkChatMessage Developer "Be brief."; mkChatMessage User "Hi"]
               None None (Some "medium") true true in
  In req (chat_requests (trace (Sample.call srv this))) /\
  occurs_in "o3-mini" (model req) /\
  occurs_in "deepseek-reasoner" (model req) /\
  req_temperature req = None /\
  messages req =
    mkChatMessage Developer "Be brief."
      :: convertToOpenAiMessages (Imports := Sample.imports) Sample.hi /\
  reasoning_effort req = Some "medium".
Proof.
  cbn zeta.
  assert (Hreq : In (mkRequest "deepseek-reasoner-o3-mini"
                       [mkChatMessage Developer "Be brief."; mkChatMessage User "Hi"]
                       None None (Some "medium") true true)
                    (chat_requests (trace (Sample.call (Sample.server [] threeChunks)
                       (Sample.handler (Some "deepseek-reasoner-o3-mini") None))))).
  { left. reflexivity. }
  assert (Ho3 : occurs_in "o3-mini" "deepseek-reasoner-o3-mini").
  { apply includes_occurs. reflexivity. }
  assert (Hds : occurs_in "deepseek-reasoner" "deepseek-reasoner-o3-mini").
  { apply includes_occurs. reflexivity. }
  destruct (C3_o3_mini_shaping (imports := Sample.imports) _ _ _ _ _ Hreq Ho3)
    as (Ht & Hm & He & _).
  repeat split; assumption.
Defined.

(** C4 fails as first stated: with the metadata flag set and the model
    "o3-mini", and likewise with a model id that matches both patterns, the
    messages of the request are the standard layout under the developer
    role, not the alternate layout. *)
Lemma C4_r1_reshaping_counterexample :
  let flagged := Some (mkModelInfo None None (Some true)) in
  let sent := [mkChatMessage Developer "Be brief."; mkChatMessage User "Hi"] in
  let alternate := convertToR1Format (Imports := Sample.imports)
                     (mkMessageParam RoleUser "Be brief." :: Sample.hi) in
  (exists req,
      In req (chat_requests (trace (Sample.call (Sample.server [] [])
                                      (Sample.handler (Some "o3-mini") flagged)))) /\
      r1FormatRequired (options (Sample.handler (Some "o3-mini") flagged)) /\
      messages req = sent /\
      messages req <> alternate) /\
  (exists req,
      In req (chat_requests (trace (Sample.call (Sample.server [] [])
                                      (Sample.handler (Some "deepseek-reasoner-o3-mini")
                                         None)))) /\
      occurs_in "deepseek-reasoner" (model req) /\
      messages req = sent /\
      messages req <> alternate).
Proof.
  cbn zeta. split.
  - eexists. split; [left; reflexivity|]. split; [|split].
    + eexists. split; reflexivity.
    + reflexivity.
    + discriminate.
  - eexists. split; [left; reflexivity|]. split; [|split].
    + apply includes_occurs. reflexivity.
    + reflexivity.
    + discriminate.
Qed.

(** The same failure for any converters whose alternate layout has no
    developer-role message. *)
Lemma C4_fails_for_every_alternate_layout (imports : Imports) srv systemPrompt msgs this req :
  Forall (fun m => chat_role m <> Developer)
         (convertToR1Format (mkMessageParam RoleUser systemPrompt :: msgs)) ->
  In req (chat_requests (trace (createMessage srv systemPrompt msgs this))) ->
  occurs_in "o3-mini" (model req) ->
  messages req <> convertToR1Format (mkMessageParam RoleUser systemPrompt :: msgs).
Proof.
  intros Hlayout Hreq Ho3 E. apply includes_occurs in Ho3.
  rewrite (createMessage_requests _ _ _ _ _ Hreq), shapeRequest_messages, Ho3 in E.
  rewrite <- E in Hlayout. inversion Hlayout as [|m l Hm _]; subst.
  now apply Hm.
Qed.

(** C4 as amended, at the model "deepseek-reasoner": the system instruction
    is folded into the first user turn. *)
Lemma C4_r1_reshaping_witness :
  let this := Sample.handler (Some "deepseek-reasoner") None in
  let srv := Sample.server [] threeChunks in
  let req := mkRequest "deepseek-reasoner"
               [mkChatMessage User ("Be brief." ++ Sample.newline ++ "Hi")]
               (Some (Num 0)) None None true true in
  In req (chat_requests (trace (Sample.call srv this))) /\
  (occurs_in "deepseek-reasoner" (model req) \/ r1FormatRequired (options this)) /\
  ~ occurs_in "o3-mini" (model req) /\
  messages req =
    convertToR1Format (Imports := Sample.imports)
      (mkMessageParam RoleUser "Be brief." :: Sample.hi).
Proof.
  cbn zeta.
  assert (Hreq : In (mkRequest "deepseek-reasoner"
                       [mkChatMessage User ("Be brief." ++ Sample.newline ++ "Hi")]
                       (Some (Num 0)) None None true true)
                    (chat_requests (trace (Sample.call (Sample.server [] threeChunks)
                       (Sample.handler (Some "deepseek-reasoner") None))))).
  { left. reflexivity. }
  assert (Hds : occurs_in "deepseek-reasoner" "deepseek-reasoner"
                \/ r1FormatRequired (options (Sample.handler (Some "deepseek-reasoner") None))).
  { left. apply includes_occurs. reflexivity. }
  assert (Ho3 : ~ occurs_in "o3-mini" "deepseek-reasoner").
  { intros H. apply includes_occurs in H. discriminate H. }
  exact (conj Hreq (conj Hds (conj Ho3
    (C4_r1_reshaping (imports := Sample.imports) _ _ _ _ _ Hreq Hds Ho3)))).
Defined.

(** C6 at a limit of 4096 tokens. *)
Lemma C6_max_tokens_forwarding_witness :
  let this := Sample.handler (Some "gpt-4o") (Some (mkModelInfo (Some (Num 4096)) None None)) in
  let srv := Sample.server [] threeChunks in
  let req := mkRequest "gpt-4o"
               [mkChatMessage System "Be brief."; mkChatMessage User "Hi"]
               (Some (Num 0)) (Some (Num 4096)) None true true in
  In req (chat_requests (trace (Sample.call srv this))) /\
  positive (Num 4096) /\
  max_tokens req = Some (Num 4096).
Proof.
  cbn zeta.
  assert (Hreq : In (mkRequest "gpt-4o"
                       [mkChatMessage System "Be brief."; mkChatMessage User "Hi"]
                       (Some (Num 0)) (Some (Num 4096)) None true true)
                    (chat_requests (trace (Sample.call (Sample.server [] threeChunks)
                       (Sample.handler (Some "gpt-4o")
                          (Some (mkModelInfo (Some (Num 4096)) None None))))))).
  { left. reflexivity. }
  assert (Hpos : positive (Num 4096)) by reflexivity.
  split; [exact Hreq|]. split; [exact Hpos|].
  exact (proj1 (C6_max_tokens_forwarding (imports := Sample.imports) _ _ _ _ _ Hreq)
           (Num 4096) eq_refl Hpos).
Defined.

(** C8 fails as first stated.  A new adapter whose first call fills the
    cache has its cache emptied when the priming, started by the constructor
    and not awaited, settles on a failed listing; and a call that began on
    the empty cache empties the cache the priming filled meanwhile when its
    own listing fails. *)
Lemma C8_cache_stability_counterexample :
  let opts := Sample.optionsFor None None in
  let lists := Sample.server ["llama-3"] [] in
  let call := Starts (CreateMessage lists "Be brief." Sample.hi) in
  (exists filled emptied,
      lifeSteps (imports := Sample.imports) [call; RefreshSettles 0 lists] (born (imports := Sample.imports) opts)
        = Some filled /\
      availableModels (adapter filled) = ["llama-3"] /\
      lifeStep (imports := Sample.imports) (PrimingSettles Sample.unreachable) filled
        = Some emptied /\
      availableModels (adapter emptied) = []) /\
  (exists filled emptied,
      lifeSteps (imports := Sample.imports) [call; PrimingSettles lists] (born (imports := Sample.imports) opts)
        = Some filled /\
      availableModels (adapter filled) = ["llama-3"] /\
      lifeStep (imports := Sample.imports) (RefreshSettles 0 Sample.unreachable) filled
        = Some emptied /\
      availableModels (adapter emptied) = []).
Proof.
  cbn zeta. split; eexists _, _; (split; [reflexivity|]); repeat split.
Qed.

(** C8 as amended, from an adapter whose priming has settled with one id,
    through calls against a server that is down and one that lists
    nothing. *)
Lemma C8_cache_stability_witness :
  let opts := Sample.optionsFor None None in
  let l := mkLifetime
             (with_availableModels (constructor (imports := Sample.imports) opts)
                ["llama-3"])
             false [] in
  let events := [Starts (CreateMessage Sample.unreachable "Be brief." Sample.hi);
                 Starts (ListModels (Sample.server [] []));
                 Starts GetModel;
                 Starts (CreateMessage (Sample.server [] threeChunks) "Be brief." Sample.hi);
                 Starts GetAvailableModels] in
  lifeSteps (imports := Sample.imports)
    [PrimingSettles (Sample.server ["llama-3"] [])] (born (imports := Sample.imports) opts) = Some l /\
  priming l = false /\
  waiting l = [] /\
  availableModels (adapter l) <> [] /\
  (exists l', lifeSteps (imports := Sample.imports) events l = Some l' /\
              adapter l' = adapter l /\
              availableModels (adapter l') <> []).
Proof.
  cbn zeta.
  set (l := mkLifetime
              (with_availableModels
                 (constructor (imports := Sample.imports) (Sample.optionsFor None None))
                 ["llama-3"])
              false []).
  assert (Hne : availableModels (adapter l) <> []) by discriminate.
  split; [reflexivity|]. split; [reflexivity|]. split; [reflexivity|].
  split; [exact Hne|].
  set (events := [Starts (CreateMessage Sample.unreachable "Be brief." Sample.hi);
                  Starts (ListModels (Sample.server [] []));
                  Starts GetModel;
                  Starts (CreateMessage (Sample.server [] threeChunks) "Be brief."
                            Sample.hi);
                  Starts GetAvailableModels]).
  assert (Hrun : lifeSteps (imports := Sample.imports) events l = Some l)
    by reflexivity.
  exists l. split; [exact Hrun|].
  destruct (C8_cache_stability (imports := Sample.imports) events l l
              eq_refl eq_refl Hne Hrun) as (Ha & Hn & _).
  split; [exact Ha | exact Hn].
Defined.

(** C9 at the model "gpt-4o", with an empty cache and a server that would
    list a model. *)
Lemma C9_explicit_id_frame_witness :
  let this := Sample.handler (Some "gpt-4o") None in
  let r := Sample.call (Sample.server ["llama-3"] threeChunks) this in
  (exists modelId, openAiModelId (options this) = Some modelId /\ modelId <> "") /\
  models_list_calls (trace r) = [] /\
  final r = this /\
  availableModels (final r) = availableModels this.
Proof.
  cbn zeta.
  assert (Hid : exists modelId,
             openAiModelId (options (Sample.handler (Some "gpt-4o") None)) = Some modelId /\
             modelId <> "").
  { exists "gpt-4o". split; [reflexivity | discriminate]. }
  split; [exact Hid|].
  exact (C9_explicit_id_frame (imports := Sample.imports) _ _ _ _ Hid).
Defined.

(** ** Further properties of the operations *)

Lemma includes_not_occurs (hay needle : string) :
  includes hay needle = false <-> ~ occurs_in needle hay.
Proof.
  rewrite <- includes_occurs.
  destruct (includes hay needle); split; congruence.
Qed.

Lemma with_availableModels_empty (this : OpenAiHandler) :
  availableModels this = [] -> with_availableModels this [] = this.
Proof. intros <-. apply with_availableModels_same. Qed.

Section Calls.

Context {imports : Imports}.

Lemma converse_trace srv req this :
  trace (converse srv req this) =
  ChatCompletionsCreateCall req
    :: map Yield (yielded (trace (converse srv req this))).
Proof.
  rewrite converse_yielded, converse_run.
  now destruct (chat_completions_create srv req).
Qed.

Lemma converse_completion srv req this :
  completion (converse srv req this) =
  match chat_completions_create srv req with
  | Resolves response =>
      match breaks_with response with
      | Some e => Thrown e
      | None => Returned tt
      end
  | Rejects e => Thrown e
  end.
Proof.
  rewrite converse_run. now destruct (chat_completions_create srv req).
Qed.

(** A call either resolves a model id and converses with the server, or
    stops with the no-models error after a listing that delivered nothing. *)
Lemma createMessage_resolution srv systemPrompt msgs this :
  (exists modelId cache before,
      Resolved srv this modelId cache before /\
      createMessage srv systemPrompt msgs this =
        let c := converse srv (shapeRequest (options this) modelId systemPrompt msgs)
                   (with_availableModels this cache) in
        mkRun (completion c) (with_availableModels this cache) (before ++ trace c)) \/
  (truthy (openAiModelId (options this)) = false /\
   availableModels this = [] /\
   listed srv = [] /\
   createMessage srv systemPrompt msgs this =
     mkRun (Thrown noModels) this (ModelsListCall :: listingLog srv)).
Proof.
  destruct (truthy (openAiModelId (options this))) eqn:Hid.
  - left. exists (nullish (openAiModelId (options this)) ""), (availableModels this), [].
    split; [now constructor|].
    rewrite (createMessage_explicit _ _ _ _ Hid), with_availableModels_same.
    cbn zeta. cbn [app].
    set (c := converse srv _ this).
    rewrite <- (converse_final srv
      (shapeRequest (options this) (nullish (openAiModelId (options this)) "")
         systemPrompt msgs) this).
    fold c. now destruct c.
  - rewrite (createMessage_default _ _ _ _ Hid). cbn zeta. unfold refreshed.
    destruct (availableModels this) as [|m cache] eqn:Hcache.
    + destruct (listed srv) as [|first others] eqn:Hlisted.
      * right. repeat split; try assumption.
        now rewrite with_availableModels_empty.
      * left. exists first, (first :: others),
          (ModelsListCall :: listingLog srv
             ++ [ConsoleLog ("Using first available model: " ++ first)%string]).
        split; [now constructor|].
        rewrite converse_final. cbn [app]. now rewrite <- app_assoc.
    + left. exists m, (m :: cache),
        [ConsoleLog ("Using first available model: " ++ m)%string].
      split; [now constructor|].
      now rewrite converse_final.
Qed.

Lemma Resolved_quiet srv this modelId cache before :
  Resolved srv this modelId cache before ->
  chat_requests before = [] /\ yielded before = [] /\
  (List.length (models_list_calls before) <= 1)%nat.
Proof.
  intros [H | first others H Hc | first others H Hc Hl]; observe;
    repeat split; cbn [List.length]; lia.
Qed.

(** X1. Order of effects in a call: at most one listing call and at most
    one chat-completion request are made; when a request is made, the
    trace is a prefix without requests or events (where the listing call
    is, if there is one), then the request, then only yields. *)
Theorem X1_request_precedes_events srv systemPrompt msgs this :
  let r := createMessage srv systemPrompt msgs this in
  (List.length (chat_requests (trace r)) <= 1)%nat /\
  (List.length (models_list_calls (trace r)) <= 1)%nat /\
  (forall req,
      In req (chat_requests (trace r)) ->
      exists before evs,
        trace r = before ++ ChatCompletionsCreateCall req :: map Yield evs /\
        chat_requests before = [] /\
        yielded before = [] /\
        models_list_calls before = models_list_calls (trace r) /\
        yielded (trace r) = evs) /\
  (chat_requests (trace r) = [] -> yielded (trace r) = []).
Proof.
  cbn zeta.
  destruct (createMessage_resolution srv systemPrompt msgs this)
    as [(modelId & cache & before & Hres & ->) | (_ & _ & _ & ->)];
    cbn zeta; cbn [trace].
  - destruct (Resolved_quiet _ _ _ _ _ Hres) as (Hq & Hy & Hl).
    observe. rewrite Hq, Hy, converse_requests, converse_models_list_calls.
    observe. repeat split; cbn [List.length]; try lia; try discriminate.
    intros req [<-|[]].
    eexists before, _. rewrite converse_trace at 1. repeat split; assumption.
  - observe. repeat split; cbn [List.length]; try lia. intros req [].
Qed.

End Calls.

Section Failures.

Context {imports : Imports}.

Lemma createMessage_completion srv systemPrompt msgs this req :
  In req (chat_requests (trace (createMessage srv systemPrompt msgs this))) ->
  completion (createMessage srv systemPrompt msgs this) =
  match chat_completions_create srv req with
  | Resolves response =>
      match breaks_with response with
      | Some e => Thrown e
      | None => Returned tt
      end
  | Rejects e => Thrown e
  end.
Proof.
  destruct (createMessage_resolution srv systemPrompt msgs this)
    as [(modelId & cache & before & Hres & ->) | (_ & _ & _ & ->)];
    cbn zeta; cbn [trace completion].
  - destruct (Resolved_quiet _ _ _ _ _ Hres) as (Hq & _ & _).
    observe. rewrite Hq, converse_requests. cbn [app].
    intros [<-|[]]. apply converse_completion.
  - observe. intros [].
Qed.

(** X2. Failure semantics of the request and the stream: an error of the
    chat-completion request reaches the caller as it is, with nothing
    yielded; when the response stream breaks off, the events of the chunks
    delivered before are yielded and then its error reaches the caller; the
    call returns normally exactly when the request resolved and the stream
    ended without an error. *)
Theorem X2_errors_reach_the_caller srv systemPrompt msgs this req :
  In req (chat_requests (trace (createMessage srv systemPrompt msgs this))) ->
  let r := createMessage srv systemPrompt msgs this in
  (forall e, chat_completions_create srv req = Rejects e ->
             completion r = Thrown e /\ yielded (trace r) = []) /\
  (forall response e,
      chat_completions_create srv req = Resolves response ->
      breaks_with response = Some e ->
      completion r = Thrown e /\
      yielded (trace r) = flat_map chunkEvents (chunks response)) /\
  (completion r = Returned tt <->
   exists response, chat_completions_create srv req = Resolves response /\
                    breaks_with response = None).
Proof.
  intros Hreq. cbn zeta.
  rewrite (createMessage_completion _ _ _ _ _ Hreq),
    (createMessage_yielded _ _ _ _ _ Hreq).
  split; [|split].
  - now intros e ->.
  - now intros response e -> ->.
  - destruct (chat_completions_create srv req) as [response|e].
    + destruct (breaks_with response) as [e|] eqn:Hb; split.
      * discriminate.
      * intros (response' & [= <-] & Hb'). congruence.
      * intros _. now exists response.
      * reflexivity.
    + split; [discriminate | intros (response & E & _); discriminate].
Qed.

Lemma Resolved_has_models srv this modelId cache before :
  Resolved srv this modelId cache before ->
  ~ (truthy (openAiModelId (options this)) = false /\
     availableModels this = [] /\ listed srv = []).
Proof.
  intros [H | first others H Hc | first others H Hc Hl] (Hid & Hcache & Hlisted);
    congruence.
Qed.

(** X3. The one error the call raises itself: no chat-completion request is
    made exactly when there is no non-empty explicit id, the cache is empty
    and the listing delivers nothing; the call then throws the no-models
    error after the one listing call and leaves the adapter as it was. *)
Theorem X3_no_request_iff_no_models srv systemPrompt msgs this :
  let r := createMessage srv systemPrompt msgs this in
  (chat_requests (trace r) = [] <->
   truthy (openAiModelId (options this)) = false /\
   availableModels this = [] /\ listed srv = []) /\
  (chat_requests (trace r) = [] ->
   completion r = Thrown noModels /\
   final r = this /\
   trace r = ModelsListCall :: listingLog srv).
Proof.
  cbn zeta.
  destruct (createMessage_resolution srv systemPrompt msgs this)
    as [(modelId & cache & before & Hres & ->) | (Hid & Hcache & Hlisted & ->)];
    cbn zeta; cbn [trace completion final].
  - destruct (Resolved_quiet _ _ _ _ _ Hres) as (Hq & _ & _).
    observe. rewrite Hq, converse_requests. cbn [app].
    split; [split|]; try discriminate.
    intros H. now apply Resolved_has_models in Hres.
  - observe. now repeat split.
Qed.

End Failures.

Section Layouts.

Context {imports : Imports}.

(** X4. The standard layout: when the model id of the request contains
    neither "o3-mini" nor "deepseek-reasoner" and the metadata flag for the
    alternate layout is not set, the messages of the request are the system
    instruction under the system role followed by the converted
    conversation. *)
Theorem X4_standard_layout srv systemPrompt msgs this req :
  In req (chat_requests (trace (createMessage srv systemPrompt msgs this))) ->
  ~ occurs_in "o3-mini" (model req) ->
  ~ occurs_in "deepseek-reasoner" (model req) ->
  ~ r1FormatRequired (options this) ->
  messages req = mkChatMessage System systemPrompt :: convertToOpenAiMessages msgs.
Proof.
  intros Hreq Ho3 Hds Hflag.
  apply includes_not_occurs in Ho3. apply includes_not_occurs in Hds.
  rewrite (createMessage_requests _ _ _ _ _ Hreq), shapeRequest_messages, Ho3, Hds.
  cbn [orb]. unfold r1FormatRequired in Hflag.
  destruct (openAiModelInfo (options this)) as [info|]; [|reflexivity].
  destruct (isR1FormatRequired info) as [[|]|] eqn:E; try reflexivity.
  exfalso. apply Hflag. now exists info.
Qed.

(** X5. Temperature and stream flags: every request asks for a stream with
    usage accounting; when its model id does not contain "o3-mini" it has no
    reasoning effort, and its temperature is the one of the metadata when
    the metadata has one (a temperature of zero included) and the one of the
    built-in defaults otherwise. *)
Theorem X5_temperature_and_flags srv systemPrompt msgs this req :
  In req (chat_requests (trace (createMessage srv systemPrompt msgs this))) ->
  stream req = true /\
  stream_options_include_usage req = true /\
  (~ occurs_in "o3-mini" (model req) ->
   reasoning_effort req = None /\
   (forall info t,
       openAiModelInfo (options this) = Some info -> temperature info = Some t ->
       req_temperature req = Some t) /\
   (forall info,
       openAiModelInfo (options this) = Some info -> temperature info = None ->
       req_temperature req = temperature openAiModelInfoSaneDefaults) /\
   (openAiModelInfo (options this) = None ->
    req_temperature req = temperature openAiModelInfoSaneDefaults)).
Proof.
  intros Hreq. rewrite (createMessage_requests _ _ _ _ _ Hreq).
  split; [reflexivity|]. split; [reflexivity|].
  intros Ho3. rewrite shapeRequest_model in Ho3. apply includes_not_occurs in Ho3.
  rewrite shapeRequest_reasoning_effort, shapeRequest_temperature, Ho3.
  split; [reflexivity|]. split; [|split].
  - now intros info t -> ->.
  - now intros info -> ->.
  - now intros ->.
Qed.

End Layouts.

Section Lifetime.

Context {imports : Imports}.

Lemma step_configuration op this :
  options (step op this) = options this /\ client (step op this) = client this.
Proof.
  destruct op as [srv systemPrompt msgs|srv| |]; cbn [step].
  - rewrite createMessage_final.
    now destruct (truthy (openAiModelId (options this))).
  - now rewrite listModels_run.
  - now split.
  - now split.
Qed.

(** X6. The configuration is fixed: no sequence of operations, and no
    priming, changes the options or the client of the adapter, so the current
    model reported by [getModel] is the same at every time; its id is the
    empty string when none is configured, also after calls that resolved a
    default id from the cache. *)
Theorem X6_configuration_is_fixed ops this :
  options (steps ops this) = options this /\
  client (steps ops this) = client this /\
  getModel (steps ops this) = getModel this /\
  (openAiModelId (options this) = None -> fst (getModel (steps ops this)) = "") /\
  (forall srv,
      options (final (initializeModelList srv this)) = options this /\
      client (final (initializeModelList srv this)) = client this).
Proof.
  assert (H : options (steps ops this) = options this /\
              client (steps ops this) = client this).
  { unfold steps. revert this.
    induction ops as [|op ops IH]; intros this; [now split|].
    cbn [fold_left]. destruct (IH (step op this)) as [-> ->].
    apply step_configuration. }
  destruct H as [Ho Hc]. unfold getModel. rewrite Ho, Hc.
  repeat split.
  - now intros ->.
  - now rewrite (proj1 (initializeModelList_final srv this)).
  - now rewrite (proj1 (initializeModelList_final srv this)).
Qed.

(** X7. Priming at construction: it makes exactly one listing call, never
    throws, stores what the listing delivers, and ends by logging the number
    of ids stored; the handler of its own [catch] never runs, so a failed
    listing is logged by [listModels] and then reported as zero retrieved
    models. *)
Theorem X7_priming srv opts :
  let r := new_OpenAiHandler srv opts in
  completion r = Returned tt /\
  final r = with_availableModels (constructor opts) (listed srv) /\
  trace r =
    ModelsListCall :: listingLog srv
      ++ [ConsoleLog ("Retrieved " ++ of_length (List.length (listed srv))
                        ++ " models from the server")%string] /\
  (forall detail,
      ~ In (ConsoleError "Failed to retrieve models during initialization:" detail)
           (trace r)) /\
  (forall e,
      models_list srv = Rejects e ->
      availableModels (final r) = [] /\
      trace r = [ModelsListCall;
                 ConsoleError "Error fetching model list:" (message e);
                 ConsoleLog "Retrieved 0 models from the server"]).
Proof.
  cbn zeta. unfold new_OpenAiHandler.
  assert (Ht : trace (initializeModelList srv (constructor opts)) =
               ModelsListCall :: listingLog srv
                 ++ [ConsoleLog ("Retrieved " ++ of_length (List.length (listed srv))
                                   ++ " models from the server")%string]).
  { unfold initializeModelList, try_catch, bind, set_availableModels, get_this,
      perform. rewrite listModels_run. cbn [completion final trace availableModels].
    cbn [app]. reflexivity. }
  destruct (initializeModelList_final srv (constructor opts)) as [Hf Hc].
  rewrite Hc, Hf, Ht. repeat split.
  - intros detail [H|H]; [discriminate|].
    apply in_app_or in H as [H|[H|[]]]; [|discriminate].
    unfold listingLog in H.
    destruct (models_list srv) as [[[models|]]|e];
      cbn in H; try destruct H as [H|[]]; try easy; discriminate.
  - unfold listed. now rewrite H.
  - unfold listed, listingLog. now rewrite H.
Qed.

(** X8. A primed cache serves the first call: when no explicit id is
    configured and the priming listed some ids, a call makes no listing
    call, whatever the server would list now, and requests the first primed
    id. *)
Theorem X8_primed_cache_serves_the_call
    srv0 opts srv systemPrompt msgs first others :
  truthy (openAiModelId opts) = false ->
  listed srv0 = first :: others ->
  let this := final (new_OpenAiHandler srv0 opts) in
  let r := createMessage srv systemPrompt msgs this in
  models_list_calls (trace r) = [] /\
  chat_requests (trace r) = [shapeRequest opts first systemPrompt msgs] /\
  availableModels (final r) = first :: others.
Proof.
  intros Hid Hlisted. cbn zeta. unfold new_OpenAiHandler.
  rewrite (proj1 (initializeModelList_final srv0 (constructor opts))), Hlisted.
  set (this := with_availableModels (constructor opts) (first :: others)).
  assert (Hid' : truthy (openAiModelId (options this)) = false) by exact Hid.
  rewrite (createMessage_default _ _ _ _ Hid'). cbn zeta. unfold refreshed.
  cbn [availableModels this with_availableModels completion final trace app].
  rewrite converse_final. observe.
  rewrite converse_models_list_calls, converse_requests.
  now repeat split.
Qed.

(** X9. A failed refresh is not remembered: when a call without an explicit
    id finds the cache empty and the listing delivers nothing, it throws the
    no-models error and leaves the adapter unchanged, so the next such call
    lists again and stores what that listing delivers. *)
Theorem X9_failed_refresh_is_retried
    srv1 srv2 systemPrompt1 msgs1 systemPrompt2 msgs2 this :
  truthy (openAiModelId (options this)) = false ->
  availableModels this = [] ->
  listed srv1 = [] ->
  let r1 := createMessage srv1 systemPrompt1 msgs1 this in
  let r2 := createMessage srv2 systemPrompt2 msgs2 (final r1) in
  completion r1 = Thrown noModels /\
  final r1 = this /\
  models_list_calls (trace r2) = [ModelsListCall] /\
  availableModels (final r2) = listed srv2.
Proof.
  intros Hid Hcache Hlisted. cbn zeta.
  assert (H1 : createMessage srv1 systemPrompt1 msgs1 this =
               mkRun (Thrown noModels) this (ModelsListCall :: listingLog srv1)).
  { rewrite (createMessage_default _ _ _ _ Hid). cbn zeta. unfold refreshed.
    rewrite Hcache, Hlisted. now rewrite with_availableModels_empty. }
  rewrite H1. cbn [completion final]. split; [reflexivity|]. split; [reflexivity|].
  rewrite (createMessage_default _ _ _ _ Hid). cbn zeta. unfold refreshed.
  rewrite Hcache.
  destruct (listed srv2) as [|first others];
    cbn [completion final trace availableModels with_availableModels];
    rewrite ?converse_final; cbn [availableModels with_availableModels];
    observe; rewrite ?converse_models_list_calls; now split.
Qed.

(** X10. The default model is stable: once the cache holds ids, no explicit
    id is configured and no listing started earlier is still awaited (the
    priming has settled and no call waits for a refresh), a call made after
    anything that happens to the adapter, against any server, does not wait
    for a refresh, makes no listing call and requests the first cached id. *)
Theorem X10_default_model_is_stable
    events l l' srv systemPrompt msgs first others :
  priming l = false ->
  waiting l = [] ->
  truthy (openAiModelId (options (adapter l))) = false ->
  availableModels (adapter l) = first :: others ->
  lifeSteps events l = Some l' ->
  let r := createMessage srv systemPrompt msgs (adapter l') in
  awaitsRefresh (adapter l') = false /\
  chat_requests (trace r) =
    [shapeRequest (options (adapter l)) first systemPrompt msgs] /\
  models_list_calls (trace r) = [] /\
  availableModels (final r) = first :: others.
Proof.
  intros Hp Hw Hid Hcache Hrun. cbn zeta.
  assert (Hne : availableModels (adapter l) <> []) by congruence.
  apply (lifeSteps_settled _ _ _ Hp Hw Hne) in Hrun. subst l'.
  split.
  - destruct (awaitsRefresh (adapter l)) eqn:E; [|reflexivity].
    apply awaitsRefresh_iff in E as [_ E]. congruence.
  - rewrite (createMessage_default _ _ _ _ Hid). cbn zeta. unfold refreshed.
    rewrite Hcache. cbn [completion final trace app].
    rewrite converse_final. observe.
    rewrite converse_models_list_calls, converse_requests.
    now repeat split.
Qed.

End Lifetime.

(** ** Further properties of the events *)

Lemma or_zero_number (n : option number) : or_zero n <> NaN.
Proof.
  destruct n as [[q| | |]|]; cbn; try discriminate.
  destruct (negb (Qeq_bool q 0)); discriminate.
Qed.

Lemma chunkEvents_length (chunk : ChatCompletionChunk) :
  (List.length (chunkEvents chunk) <= 3)%nat.
Proof.
  unfold chunkEvents, textEvents, reasoningEvents, usageEvents.
  destruct (firstDelta chunk) as [[[[|c s]|] [[[|c' s']|]|]]|];
    destruct (usage chunk); cbn; lia.
Qed.

Lemma chunkEvents_well_formed (chunk : ChatCompletionChunk) (ev : ApiStreamChunk) :
  In ev (chunkEvents chunk) ->
  match ev with
  | TextChunk s => s <> ""
  | ReasoningChunk s => s <> ""
  | UsageChunk i o => i <> NaN /\ o <> NaN
  end.
Proof.
  unfold chunkEvents. rewrite !in_app_iff, textEvents_iff, reasoningEvents_iff,
    usageEvents_iff.
  intros [(d & s & _ & _ & Hs & ->) | [(d & s & _ & _ & Hs & ->) | (u & _ & ->)]];
    try assumption.
  split; apply or_zero_number.
Qed.

(** X11. Only the first choice of a chunk is read: the run of the loop body
    is the same whatever choices follow the first one. *)
Theorem X11_only_the_first_choice choice rest rest' u this :
  onChunk (mkChunk (choice :: rest) u) this =
  onChunk (mkChunk (choice :: rest') u) this.
Proof. now rewrite !onChunk_run. Qed.

(** X14. Effects of the listing: it makes exactly one listing call and no
    chat-completion request and yields nothing; it writes to the console
    only when the call fails, and then the error's message, once. *)
Theorem X14_listing_effects srv this :
  let r := listModels srv this in
  models_list_calls (trace r) = [ModelsListCall] /\
  chat_requests (trace r) = [] /\
  yielded (trace r) = [] /\
  (forall e,
      models_list srv = Rejects e ->
      trace r = [ModelsListCall;
                 ConsoleError "Error fetching model list:" (message e)]) /\
  (forall page models,
      models_list srv = Resolves page -> data page = Some models ->
      trace r = [ModelsListCall]).
Proof.
  cbn zeta. rewrite listModels_run. cbn [trace]. observe.
  repeat split.
  - intros e He. unfold listingLog. now rewrite He.
  - intros page models Hp Hd. unfold listingLog. now rewrite Hp, Hd.
Qed.

Section EventBounds.

Context {imports : Imports}.

Lemma createMessage_event_origin srv systemPrompt msgs this ev :
  In ev (yielded (trace (createMessage srv systemPrompt msgs this))) ->
  exists chunk, In ev (chunkEvents chunk).
Proof.
  destruct (createMessage_resolution srv systemPrompt msgs this)
    as [(modelId & cache & before & Hres & ->) | (_ & _ & _ & ->)];
    cbn zeta; cbn [trace].
  - destruct (Resolved_quiet _ _ _ _ _ Hres) as (_ & Hy & _).
    observe. rewrite Hy, converse_yielded. cbn [app].
    destruct (chat_completions_create srv _) as [response|e]; [|intros []].
    intros H. apply in_flat_map in H as (chunk & _ & H). now exists chunk.
  - observe. intros [].
Qed.

(** X12. Events are never empty: no call yields a text event or a reasoning
    event with the empty string (so the fallback to the empty string at line
    120 is never taken), and the token counts of a usage event are never
    NaN. *)
Theorem X12_events_are_never_empty srv systemPrompt msgs this :
  let evs := yielded (trace (createMessage srv systemPrompt msgs this)) in
  (forall s, In (TextChunk s) evs -> s <> "") /\
  (forall s, In (ReasoningChunk s) evs -> s <> "") /\
  (forall i o, In (UsageChunk i o) evs -> i <> NaN /\ o <> NaN).
Proof.
  cbn zeta. repeat split; intros;
    match goal with
    | H : In _ (yielded _) |- _ =>
        apply createMessage_event_origin in H as (chunk & H);
        apply chunkEvents_well_formed in H
    end; tauto.
Qed.

(** X13. At most three events per chunk: the number of events of a call is
    at most three times the number of chunks of the response to its
    request. *)
Theorem X13_at_most_three_events_per_chunk srv systemPrompt msgs this req response :
  In req (chat_requests (trace (createMessage srv systemPrompt msgs this))) ->
  chat_completions_create srv req = Resolves response ->
  (List.length (yielded (trace (createMessage srv systemPrompt msgs this)))
   <= 3 * List.length (chunks response))%nat.
Proof.
  intros Hreq Hresp. rewrite (createMessage_yielded _ _ _ _ _ Hreq), Hresp.
  induction (chunks response) as [|chunk cs IH]; [cbn; lia|].
  cbn [flat_map List.length]. rewrite length_app.
  pose proof (chunkEvents_length chunk). lia.
Qed.

End EventBounds.

Section FirstListed.

Context {imports : Imports}.

(** X15. The first listed id becomes the default: when no explicit id is
    configured and the cache is empty, and the listing operation against the
    server returns a non-empty list, a call against that server requests the
    first id of that list and the cache then holds the list. *)
Theorem X15_first_listed_id_is_the_default
    srv systemPrompt msgs this first others :
  truthy (openAiModelId (options this)) = false ->
  availableModels this = [] ->
  completion (listModels srv this) = Returned (first :: others) ->
  let r := createMessage srv systemPrompt msgs this in
  chat_requests (trace r) = [shapeRequest (options this) first systemPrompt msgs] /\
  model (shapeRequest (options this) first systemPrompt msgs) = first /\
  getAvailableModels (final r) = first :: others.
Proof.
  intros Hid Hcache Hlist. rewrite listModels_run in Hlist.
  cbn [completion] in Hlist. injection Hlist as Hlisted. cbn zeta.
  rewrite (createMessage_default _ _ _ _ Hid). cbn zeta. unfold refreshed.
  rewrite Hcache, Hlisted. cbn [completion final trace].
  rewrite converse_final. unfold getAvailableModels.
  cbn [availableModels with_availableModels]. observe.
  rewrite converse_requests. now repeat split.
Qed.

End FirstListed.

(** ** Concrete runs of the further properties *)

(** X2 at a stream that breaks off after its first chunk. *)
Lemma X2_errors_reach_the_caller_witness :
  let srv := Sample.breaking [mkChunk [mkChoice (Some (mkDelta (Some "Hello") None))] None]
               (mkError "socket hang up") in
  let this := Sample.handler (Some "gpt-4o") None in
  let req := mkRequest "gpt-4o"
               [mkChatMessage System "Be brief."; mkChatMessage User "Hi"]
               (Some (Num 0)) None None true true in
  In req (chat_requests (trace (Sample.call srv this))) /\
  completion (Sample.call srv this) = Thrown (mkError "socket hang up") /\
  yielded (trace (Sample.call srv this)) = [TextChunk "Hello"].
Proof.
  cbn zeta.
  assert (Hreq : In (mkRequest "gpt-4o"
                       [mkChatMessage System "Be brief."; mkChatMessage User "Hi"]
                       (Some (Num 0)) None None true true)
                    (chat_requests (trace (Sample.call
                       (Sample.breaking
                          [mkChunk [mkChoice (Some (mkDelta (Some "Hello") None))] None]
                          (mkError "socket hang up"))
                       (Sample.handler (Some "gpt-4o") None))))).
  { left. reflexivity. }
  split; [exact Hreq|].
  exact (proj1 (proj2 (X2_errors_reach_the_caller (imports := Sample.imports)
                         _ _ _ _ _ Hreq)) _ _ eq_refl eq_refl).
Defined.

(** X4 at the model "gpt-4o" without metadata. *)
Lemma X4_standard_layout_witness :
  let this := Sample.handler (Some "gpt-4o") None in
  let srv := Sample.server [] threeChunks in
  let req := mkRequest "gpt-4o"
               [mkChatMessage System "Be brief."; mkChatMessage User "Hi"]
               (Some (Num 0)) None None true true in
  In req (chat_requests (trace (Sample.call srv this))) /\
  ~ occurs_in "o3-mini" (model req) /\
  ~ occurs_in "deepseek-reasoner" (model req) /\
  ~ r1FormatRequired (options this) /\
  messages req =
    mkChatMessage System "Be brief."
      :: convertToOpenAiMessages (Imports := Sample.imports) Sample.hi.
Proof.
  cbn zeta.
  assert (Hreq : In (mkRequest "gpt-4o"
                       [mkChatMessage System "Be brief."; mkChatMessage User "Hi"]
                       (Some (Num 0)) None None true true)
                    (chat_requests (trace (Sample.call (Sample.server [] threeChunks)
                       (Sample.handler (Some "gpt-4o") None))))).
  { left. reflexivity. }
  assert (Ho3 : ~ occurs_in "o3-mini" "gpt-4o").
  { apply includes_not_occurs. reflexivity. }
  assert (Hds : ~ occurs_in "deepseek-reasoner" "gpt-4o").
  { apply includes_not_occurs. reflexivity. }
  assert (Hflag : ~ r1FormatRequired (options (Sample.handler (Some "gpt-4o") None))).
  { intros (info & E & _). discriminate E. }
  exact (conj Hreq (conj Ho3 (conj Hds (conj Hflag
    (X4_standard_layout (imports := Sample.imports) _ _ _ _ _ Hreq Ho3 Hds Hflag))))).
Defined.

(** X5 at a configured temperature of zero, with defaults that say 0.7. *)
Lemma X5_temperature_and_flags_witness :
  let warm := mkImports "2024-08-01-preview"
                (mkModelInfo None (Some (Num (7 # 10))) None)
                Sample.toOpenAiMessages Sample.toR1Format in
  let opts := Sample.optionsFor (Some "gpt-4o") (Some (mkModelInfo None (Some (Num 0)) None)) in
  let this := constructor (imports := warm) opts in
  let srv := Sample.server [] threeChunks in
  let req := mkRequest "gpt-4o"
               [mkChatMessage System "Be brief."; mkChatMessage User "Hi"]
               (Some (Num 0)) None None true true in
  In req (chat_requests (trace (createMessage (imports := warm) srv "Be brief."
                                  Sample.hi this))) /\
  stream req = true /\
  stream_options_include_usage req = true /\
  req_temperature req = Some (Num 0).
Proof.
  cbn zeta.
  set (warm := mkImports "2024-08-01-preview"
                 (mkModelInfo None (Some (Num (7 # 10))) None)
                 Sample.toOpenAiMessages Sample.toR1Format).
  set (this := constructor (imports := warm)
                 (Sample.optionsFor (Some "gpt-4o")
                    (Some (mkModelInfo None (Some (Num 0)) None)))).
  assert (Hreq : In (mkRequest "gpt-4o"
                       [mkChatMessage System "Be brief."; mkChatMessage User "Hi"]
                       (Some (Num 0)) None None true true)
                    (chat_requests (trace (createMessage (imports := warm)
                       (Sample.server [] threeChunks) "Be brief." Sample.hi this)))).
  { left. reflexivity. }
  assert (Ho3 : ~ occurs_in "o3-mini" "gpt-4o").
  { apply includes_not_occurs. reflexivity. }
  destruct (X5_temperature_and_flags (imports := warm) _ _ _ _ _ Hreq)
    as (Hs & Hu & Hrest).
  destruct (Hrest Ho3) as (_ & Ht & _).
  split; [exact Hreq|]. split; [exact Hs|]. split; [exact Hu|].
  exact (Ht _ _ eq_refl eq_refl).
Defined.

(** X8 after a priming that listed two ids, against a server that lists
    nothing now. *)
Lemma X8_primed_cache_serves_the_call_witness :
  let opts := Sample.optionsFor None None in
  let this := final (new_OpenAiHandler (imports := Sample.imports)
                       (Sample.server ["llama-3"; "qwen"] []) opts) in
  let r := createMessage (imports := Sample.imports)
             (Sample.breaking [] (mkError "socket hang up")) "Be brief." Sample.hi this in
  truthy (openAiModelId opts) = false /\
  listed (Sample.server ["llama-3"; "qwen"] []) = ["llama-3"; "qwen"] /\
  models_list_calls (trace r) = [] /\
  chat_requests (trace r) =
    [shapeRequest (imports := Sample.imports) opts "llama-3" "Be brief." Sample.hi] /\
  availableModels (final r) = ["llama-3"; "qwen"].
Proof.
  cbn zeta.
  assert (Hid : truthy (openAiModelId (Sample.optionsFor None None)) = false)
    by reflexivity.
  assert (Hl : listed (Sample.server ["llama-3"; "qwen"] []) = ["llama-3"; "qwen"])
    by reflexivity.
  exact (conj Hid (conj Hl
    (X8_primed_cache_serves_the_call (imports := Sample.imports)
       _ _ _ _ _ _ _ Hid Hl))).
Defined.

(** X9 with a server that is down and then one that lists an id. *)
Lemma X9_failed_refresh_is_retried_witness :
  let this := Sample.handler None None in
  let r1 := Sample.call Sample.unreachable this in
  let r2 := Sample.call (Sample.server ["llama-3"] []) (final r1) in
  truthy (openAiModelId (options this)) = false /\
  availableModels this = [] /\
  listed Sample.unreachable = [] /\
  completion r1 = Thrown noModels /\
  final r1 = this /\
  models_list_calls (trace r2) = [ModelsListCall] /\
  availableModels (final r2) = listed (Sample.server ["llama-3"] []).
Proof.
  cbn zeta.
  assert (Hid : truthy (openAiModelId (options (Sample.handler None None))) = false)
    by reflexivity.
  assert (Hc : availableModels (Sample.handler None None) = []) by reflexivity.
  assert (Hl : listed Sample.unreachable = []) by reflexivity.
  exact (conj Hid (conj Hc (conj Hl
    (X9_failed_refresh_is_retried (imports := Sample.imports)
       _ _ _ _ _ _ _ Hid Hc Hl)))).
Defined.

(** X10 from an adapter whose priming has settled with one id, after a
    listing and a call, against a server that now lists another id. *)
Lemma X10_default_model_is_stable_witness :
  let l := mkLifetime
             (with_availableModels
                (constructor (imports := Sample.imports) (Sample.optionsFor None None))
                ["llama-3"])
             false [] in
  let events := [Starts (ListModels (Sample.server ["qwen"] []));
                 Starts (CreateMessage (Sample.server ["qwen"] []) "Be brief." Sample.hi)] in
  let r := Sample.call (Sample.server ["qwen"] []) (adapter l) in
  lifeSteps (imports := Sample.imports)
    [PrimingSettles (Sample.server ["llama-3"] [])]
    (born (imports := Sample.imports) (Sample.optionsFor None None)) = Some l /\
  priming l = false /\
  waiting l = [] /\
  truthy (openAiModelId (options (adapter l))) = false /\
  availableModels (adapter l) = ["llama-3"] /\
  lifeSteps (imports := Sample.imports) events l = Some l /\
  chat_requests (trace r) =
    [shapeRequest (imports := Sample.imports) (options (adapter l)) "llama-3"
       "Be brief." Sample.hi] /\
  models_list_calls (trace r) = [] /\
  availableModels (final r) = ["llama-3"].
Proof.
  cbn zeta.
  set (l := mkLifetime
              (with_availableModels
                 (constructor (imports := Sample.imports) (Sample.optionsFor None None))
                 ["llama-3"])
              false []).
  set (events := [Starts (ListModels (Sample.server ["qwen"] []));
                  Starts (CreateMessage (Sample.server ["qwen"] []) "Be brief."
                            Sample.hi)]).
  assert (Hid : truthy (openAiModelId (options (adapter l))) = false) by reflexivity.
  assert (Hc : availableModels (adapter l) = ["llama-3"]) by reflexivity.
  assert (Hrun : lifeSteps (imports := Sample.imports) events l = Some l)
    by reflexivity.
  split; [reflexivity|]. split; [reflexivity|]. split; [reflexivity|].
  split; [exact Hid|]. split; [exact Hc|]. split; [exact Hrun|].
  exact (proj2 (X10_default_model_is_stable (imports := Sample.imports)
                  events l l (Sample.server ["qwen"] []) "Be brief." Sample.hi
                  "llama-3" [] eq_refl eq_refl Hid Hc Hrun)).
Defined.

(** X13 at the three chunks of the spec, which yield three events. *)
Lemma X13_at_most_three_events_per_chunk_witness :
  let srv := Sample.server [] threeChunks in
  let this := Sample.handler (Some "gpt-4o") None in
  let req := mkRequest "gpt-4o"
               [mkChatMessage System "Be brief."; mkChatMessage User "Hi"]
               (Some (Num 0)) None None true true in
  In req (chat_requests (trace (Sample.call srv this))) /\
  chat_completions_create srv req = Resolves (mkStream threeChunks None) /\
  (List.length (yielded (trace (Sample.call srv this))) <= 3 * 3)%nat.
Proof.
  cbn zeta.
  assert (Hreq : In (mkRequest "gpt-4o"
                       [mkChatMessage System "Be brief."; mkChatMessage User "Hi"]
                       (Some (Num 0)) None None true true)
                    (chat_requests (trace (Sample.call (Sample.server [] threeChunks)
                       (Sample.handler (Some "gpt-4o") None))))).
  { left. reflexivity. }
  split; [exact Hreq|]. split; [reflexivity|].
  exact (X13_at_most_three_events_per_chunk (imports := Sample.imports)
           _ _ _ _ _ (mkStream threeChunks None) Hreq eq_refl).
Defined.

(** X15 on a new adapter and a server that lists two ids. *)
Lemma X15_first_listed_id_is_the_default_witness :
  let this := Sample.handler None None in
  let srv := Sample.server ["llama-3"; "qwen"] [] in
  let r := Sample.call srv this in
  truthy (openAiModelId (options this)) = false /\
  availableModels this = [] /\
  completion (listModels srv this) = Returned ["llama-3"; "qwen"] /\
  chat_requests (trace r) =
    [shapeRequest (imports := Sample.imports) (options this) "llama-3"
       "Be brief." Sample.hi] /\
  getAvailableModels (final r) = ["llama-3"; "qwen"].
Proof.
  cbn zeta.
  assert (Hid : truthy (openAiModelId (options (Sample.handler None None))) = false)
    by reflexivity.
  assert (Hc : availableModels (Sample.handler None None) = []) by reflexivity.
  assert (Hl : completion (listModels (Sample.server ["llama-3"; "qwen"] [])
                             (Sample.handler None None))
               = Returned ["llama-3"; "qwen"]) by reflexivity.
  destruct (X15_first_listed_id_is_the_default (imports := Sample.imports)
              _ "Be brief." Sample.hi _ _ _ Hid Hc Hl) as (Hr & _ & Ha).
  exact (conj Hid (conj Hc (conj Hl (conj Hr Ha)))).
Defined.
